(** * dingo.gw.waveform_dataset: SVD basis and waveform dataset

    A shallow embedding of [src/dingo/gw/waveform_dataset.py]:
    the class [SVDBasis] (generation, application and persistence of a
    reduced basis) and the class [WaveformDataset] (loading an HDF5 file
    and serving samples through [__getitem__]).

    numpy arrays are modelled by their dtype, their shape and their
    entries.  The scalar arithmetic is kept abstract (class [Scalar]): the
    results below hold for any addition, multiplication and rounding, so
    they do not depend on how floating point rounds; only the fact that
    complex conjugation is an involution is used.  Concrete runs use the
    Gaussian integers. *)

From Stdlib Require Import ZArith Lia.
From stdpp Require Import base option list strings gmap.

Local Open Scope string_scope.
Local Open Scope Z_scope.

(** ** Python exceptions *)

Inductive exn :=
| ValueError (msg : string)
| IndexError (msg : string)
| KeyError (key : string)
| FileNotFoundError (path : string)
| LinAlgError (msg : string).

(** A computation that returns a value or raises. *)
Definition result (A : Type) : Type := exn + A.

Definition raise {A} (e : exn) : result A := inl e.

#[global] Instance result_ret : MRet result := fun _ x => inr x.
#[global] Instance result_bind : MBind result := fun _ _ f m =>
  match m with
  | inl e => inl e
  | inr x => f x
  end.

(** ** numpy dtypes and scalars *)

Inductive dtype := float32 | float64 | complex64 | complex128.

#[global] Instance dtype_eq_dec : EqDecision dtype.
Proof. solve_decision. Defined.

Definition is_complex (d : dtype) : bool :=
  match d with complex64 | complex128 => true | _ => false end.

Definition is_double (d : dtype) : bool :=
  match d with float64 | complex128 => true | _ => false end.

(** [np.result_type] on the four floating dtypes. *)
Definition result_type (a b : dtype) : dtype :=
  match is_complex a || is_complex b, is_double a || is_double b with
  | true, true => complex128
  | true, false => complex64
  | false, true => float64
  | false, false => float32
  end.

(** The arithmetic of array entries.  [cast d] rounds an entry to the
    precision of [d] (and drops the imaginary part for a real [d]). *)
Class Scalar (C : Type) := {
  czero : C;
  cadd : C → C → C;
  cmul : C → C → C;
  cconj : C → C;
  cast : dtype → C → C;
  cconj_involutive : ∀ x, cconj (cconj x) = x
}.

Section Arrays.
Context {C : Type} `{Scalar C}.

(** ** numpy arrays *)

(** A 1-D array. *)
Record vector := Vector {
  vdtype : dtype;
  vdata : list C
}.

(** A 2-D array, stored by rows; [mshape] is numpy's [shape]. *)
Record matrix := Matrix {
  mdtype : dtype;
  mshape : nat * nat;
  mrows : list (list C)
}.

(** The arrays numpy can build are rectangular. *)
Definition wf_matrix (m : matrix) : Prop :=
  length (mrows m) = (mshape m).1 ∧
  Forall (λ r, length r = (mshape m).2) (mrows m).

Definition wf_matrixb (m : matrix) : bool :=
  Nat.eqb (length (mrows m)) (mshape m).1 &&
  forallb (λ r, Nat.eqb (length r) (mshape m).2) (mrows m).

(** [len(m)] *)
Definition len_matrix (m : matrix) : nat := (mshape m).1.

(** [m.T] *)
Definition transpose (m : matrix) : matrix :=
  {| mdtype := mdtype m;
     mshape := ((mshape m).2, (mshape m).1);
     mrows := (λ j, (λ r, nth j r czero) <$> mrows m)
                <$> seq 0 (mshape m).2 |}.

(** [m.conj()] *)
Definition conj (m : matrix) : matrix :=
  {| mdtype := mdtype m;
     mshape := mshape m;
     mrows := (λ r : list C, cconj <$> r) <$> mrows m |}.

(** [m.astype(d)] *)
Definition astype (d : dtype) (m : matrix) : matrix :=
  {| mdtype := d;
     mshape := mshape m;
     mrows := (λ r : list C, cast d <$> r) <$> mrows m |}.

(** The stop index of the slice [[:n]] on an axis of length [len]:
    a negative [n] counts from the end, and the result is clamped. *)
Definition slice_stop (n : Z) (len : nat) : nat :=
  if n <? 0 then Z.to_nat (Z.of_nat len + n)
  else Nat.min (Z.to_nat n) len.

(** [m[:n, :]] *)
Definition slice_rows (n : Z) (m : matrix) : matrix :=
  let k := slice_stop n (mshape m).1 in
  {| mdtype := mdtype m;
     mshape := (k, (mshape m).2);
     mrows := take k (mrows m) |}.

(** [m[:, :n]] *)
Definition slice_cols (n : Z) (m : matrix) : matrix :=
  let k := slice_stop n (mshape m).2 in
  {| mdtype := mdtype m;
     mshape := ((mshape m).1, k);
     mrows := take k <$> mrows m |}.

(** The leading [k] rows of [m], in the order [m] has them. *)
Definition leading_rows (k : nat) (m : matrix) : matrix :=
  {| mdtype := mdtype m;
     mshape := (k, (mshape m).2);
     mrows := take k (mrows m) |}.

(** *** Matrix product, [x @ m] *)

Definition dot (u v : list C) : C :=
  foldl cadd czero (zip_with cmul u v).

Definition column (j : nat) (m : matrix) : list C :=
  (λ r, nth j r czero) <$> mrows m.

Definition row_times (u : list C) (m : matrix) : list C :=
  (λ j, dot u (column j m)) <$> seq 0 (mshape m).2.

Definition mismatch_msg : string :=
  "matmul: Input operand 1 has a mismatch in its core dimension 0".

Definition none_operand_msg : string :=
  "matmul: Input operand 1 does not have enough dimensions".

(** The left operand of [@] in this program: a row vector or a batch of
    row vectors. *)
Inductive ndarray :=
| Arr1 (v : vector)
| Arr2 (m : matrix).

Definition matmul (x : ndarray) (m : matrix) : result ndarray :=
  match x with
  | Arr1 v =>
      if decide (length (vdata v) = (mshape m).1)
      then mret (Arr1 {| vdtype := result_type (vdtype v) (mdtype m);
                         vdata := row_times (vdata v) m |})
      else raise (ValueError mismatch_msg)
  | Arr2 a =>
      if decide ((mshape a).2 = (mshape m).1)
      then mret (Arr2 {| mdtype := result_type (mdtype a) (mdtype m);
                         mshape := ((mshape a).1, (mshape m).2);
                         mrows := (λ r, row_times r m) <$> mrows a |})
      else raise (ValueError mismatch_msg)
  end.

(** [x @ y] where the attribute [y] holds an array or [None]: numpy turns
    [None] into a 0-d object array, which [matmul] refuses. *)
Definition matmul_attr (x : ndarray) (y : option matrix) : result ndarray :=
  match y with
  | None => raise (ValueError none_operand_msg)
  | Some m => matmul x m
  end.

End Arrays.

Arguments vector C : clear implicits.
Arguments matrix C : clear implicits.
Arguments ndarray C : clear implicits.

(** ** class SVDBasis *)

(** [np.save] appends the extension [.npy] to a file name that lacks it;
    [np.load] opens the name it is given. *)
Definition ends_with (suffix s : string) : bool :=
  let k := String.length suffix in
  let l := String.length s in
  (k <=? l)%nat && String.eqb (String.substring (l - k) k s) suffix.

Definition npy_path (file : string) : string :=
  if ends_with ".npy" file then file else file +:+ ".npy".

Module SVDBasis.
Section Defs.
Context {C : Type} `{Scalar C}.

(** The triple [U, s, Vh] returned by a decomposition. *)
Record svd_result := SVD {
  svd_U : matrix C;
  svd_s : vector C;
  svd_Vh : matrix C
}.

(** The two decompositions come from scipy and scikit-learn:
    [scipy.linalg.svd(a, full_matrices=False)] and
    [randomized_svd(M, n_components)] (with the random state it draws
    from).  Both can raise. *)
Variable scipy_linalg_svd : matrix C → result svd_result.
Variable randomized_svd : matrix C → Z → result svd_result.

(** The attributes of an [SVDBasis] object; [None] is Python's [None]. *)
Record t := Basis {
  V : option (matrix C);
  Vh : option (matrix C);
  n : option Z
}.

Definition __init__ : t := {| V := None; Vh := None; n := None |}.

Definition unsupported_msg (method : string) : string :=
  "Unsupported SVD method: " +:+ method +:+ ".".

(** [generate_basis(self, training_data, n, method)]: the outcome of the
    call and the object after it. *)
Definition generate_basis (training_data : matrix C) (n : Z)
    (method : string) (self : t) : result () * t :=
  if String.eqb method "random" then
    let n := if n =? 0
             then Z.of_nat (Nat.min (mshape training_data).1
                                    (mshape training_data).2)
             else n in
    match randomized_svd training_data n with
    | inl e => (inl e, self)
    | inr r =>
        let Vh := astype complex64 (svd_Vh r) in
        (inr (), {| V := Some (conj (transpose Vh));
                    Vh := Some Vh;
                    n := Some n |})
    end
  else if String.eqb method "scipy" then
    match scipy_linalg_svd training_data with
    | inl e => (inl e, self)
    | inr r =>
        let Vh := svd_Vh r in
        let V := conj (transpose Vh) in
        let '(selfV, selfVh) :=
          if (n =? 0) || (n >? Z.of_nat (len_matrix V))
          then (V, Vh)
          else (slice_cols n V, slice_rows n Vh) in
        (inr (), {| V := Some selfV;
                    Vh := Some selfVh;
                    n := Some (Z.of_nat (len_matrix selfVh)) |})
    end
  else (raise (ValueError (unsupported_msg method)), self).

(** [coefficients @ self.Vh] *)
Definition basis_coefficients_to_fseries (self : t)
    (coefficients : ndarray C) : result (ndarray C) :=
  matmul_attr coefficients (Vh self).

(** [fseries @ self.V] *)
Definition fseries_to_basis_coefficients (self : t)
    (fseries : ndarray C) : result (ndarray C) :=
  matmul_attr fseries (V self).

(** The disk is the map from the names of the [.npy] files to the arrays
    they hold; every file this class writes holds the 2-D array [V], and
    the disk holds 2-D arrays only.  On a file with an array of another
    dimension the source assigns [self.V] and [self.Vh] and then raises at
    [self.V.shape[1]]; such files are outside this disk, and of a
    [from_file] that raises the development uses the missing file only,
    where [np.load] raises before any assignment. *)
Definition from_file (filename : string) (disk : gmap string (matrix C))
    (self : t) : result () * t :=
  match disk !! filename with
  | None => (raise (FileNotFoundError filename), self)
  | Some v =>
      (inr (), {| V := Some v;
                  Vh := Some (conj (transpose v));
                  n := Some (Z.of_nat (mshape v).2) |})
  end.

(** [to_file] changes the disk and leaves the object alone. *)
Definition to_file (filename : string) (self : t)
    (disk : gmap string (matrix C)) : gmap string (matrix C) :=
  match V self with
  | Some v => <[npy_path filename := v]> disk
  | None => disk
  end.

(** *** The calls that populate the object, and those that do not *)

(** The rank the ['random'] branch asks [randomized_svd] for. *)
Definition resolved_rank (training_data : matrix C) (k : Z) : Z :=
  if k =? 0
  then Z.of_nat (Nat.min (mshape training_data).1 (mshape training_data).2)
  else k.

(** [populates b b']: a call that generates or loads a basis takes the
    object from [b] to [b'].  The one premise on the arrays that the
    libraries hand over is that they are rectangular, as every numpy array
    is. *)
Inductive populates : t → t → Prop :=
| populates_random td k b b' r :
    randomized_svd td (resolved_rank td k) = inr r →
    wf_matrix (svd_Vh r) →
    generate_basis td k "random" b = (inr (), b') →
    populates b b'
| populates_scipy td k b b' r :
    scipy_linalg_svd td = inr r →
    wf_matrix (svd_Vh r) →
    generate_basis td k "scipy" b = (inr (), b') →
    populates b b'
| populates_from_file filename disk b b' :
    map_Forall (λ _ v, wf_matrix v) disk →
    from_file filename disk b = (inr (), b') →
    populates b b'.

(** [unpopulated b]: [b] is a new object on which every call so far was
    a [generate_basis] that raised or a [from_file] of a file that does
    not exist. *)
Inductive unpopulated : t → Prop :=
| unpopulated_init : unpopulated __init__
| unpopulated_generate td k method b e b' :
    unpopulated b →
    generate_basis td k method b = (inl e, b') →
    unpopulated b'
| unpopulated_from_file filename disk b e b' :
    unpopulated b →
    disk !! filename = None →
    from_file filename disk b = (inl e, b') →
    unpopulated b'.

End Defs.

Arguments svd_result C : clear implicits.
Arguments t C : clear implicits.
End SVDBasis.

(** ** class WaveformDataset *)

(** An attribute of a Python object: in [self.__dict__] or not. *)
Inductive attr (A : Type) :=
| Absent
| Present (v : A).
Arguments Absent {A}.
Arguments Present {A} v.

Definition oob_msg : string := "single positional indexer is out-of-bounds".

(** [df.iloc[idx]] for an integer [idx]: positions count from the end when
    [idx] is negative. *)
Definition iloc {A} (df : list A) (idx : Z) : result A :=
  let len := Z.of_nat (length df) in
  if (idx <? - len) || (len <=? idx) then raise (IndexError oob_msg)
  else
    match df !! Z.to_nat (if idx <? 0 then len + idx else idx) with
    | Some row => mret row
    | None => raise (IndexError oob_msg)
    end.

(** [obj[key]] on a mapping, by way of the looked-up option. *)
Definition getkey {A} (key : string) (o : option A) : result A :=
  match o with
  | Some x => mret x
  | None => raise (KeyError key)
  end.

Module WaveformDataset.
Section Defs.
Context {C : Type} `{Scalar C}.

(** The structured array [fp['parameters'][:]]: named columns, one record
    per sample. *)
Record parameter_array := ParameterArray {
  names : list string;
  records : list (list C)
}.

(** The HDF5 file: the datasets and groups [load] looks at. *)
Record h5file := H5File {
  h5_parameters : option parameter_array;
  h5_waveform_polarizations : option (gmap string (matrix C));
  h5_rb_matrix_V : option (matrix C);
  h5_attrs : gmap string string
}.

(** The dictionaries [__getitem__] returns. *)
Definition parameters_dict : Type := list (string * C).

Record waveform_dict := Waveform {
  h_plus : ndarray C;
  h_cross : ndarray C
}.

Record sample := Sample {
  parameters : parameters_dict;
  waveform : waveform_dict
}.

(** The settings record and the domain are opaque here:
    [ast.literal_eval], the subscript on its result, and
    [dingo.gw.domains.build_domain]. *)
Variables Settings Domain : Type.
Variable literal_eval : string → result Settings.
Variable subscript : Settings → string → result Settings.
Variable build_domain : Settings → result Domain.

Record t := Dataset {
  transform : option (sample → result sample);
  _Vh : attr (option (matrix C));
  _parameter_samples : list parameters_dict;
  _waveform_polarizations : list waveform_dict;
  data_settings : Settings;
  domain : Domain
}.

(** [pd.DataFrame(parameter_array)], by rows. *)
Definition DataFrame_of_records (a : parameter_array)
    : list parameters_dict :=
  (λ r, zip (names a) r) <$> records a.

(** [[x for x in a]] for a 2-D array [a]: its rows as 1-D arrays. *)
Definition rows_of (a : matrix C) : list (ndarray C) :=
  (λ r, Arr1 {| vdtype := mdtype a; vdata := r |}) <$> mrows a.

Definition unequal_msg : string := "All arrays must be of the same length".

(** [pd.DataFrame({'h_plus': ..., 'h_cross': ...})], by rows: pandas
    refuses columns of different lengths. *)
Definition DataFrame_of_columns (plus cross : list (ndarray C))
    : result (list waveform_dict) :=
  if decide (length plus = length cross)
  then mret (zip_with Waveform plus cross)
  else raise (ValueError unequal_msg).

(** [load(self, filename)], on an object that has the attributes
    [transform] and [_Vh] set by [__init__]. *)
Definition load (self_transform : option (sample → result sample))
    (self_Vh : attr (option (matrix C)))
    (disk : gmap string h5file) (filename : string) : result t :=
  match disk !! filename with
  | None => raise (FileNotFoundError filename)
  | Some fp =>
      parameter_array ← getkey "parameters" (h5_parameters fp);
      let _parameter_samples := DataFrame_of_records parameter_array in
      grp ← getkey "waveform_polarizations" (h5_waveform_polarizations fp);
      plus ← getkey "h_plus" (grp !! "h_plus");
      cross ← getkey "h_cross" (grp !! "h_cross");
      _waveform_polarizations ←
        DataFrame_of_columns (rows_of plus) (rows_of cross);
      let _Vh :=
        match h5_rb_matrix_V fp with
        | Some V => Present (Some (conj (transpose V)))
        | None => self_Vh
        end in
      settings ← getkey "settings" (h5_attrs fp !! "settings");
      data_settings ← literal_eval settings;
      domain_settings ← subscript data_settings "domain_settings";
      domain ← build_domain domain_settings;
      mret {| transform := self_transform;
              _Vh := _Vh;
              _parameter_samples := _parameter_samples;
              _waveform_polarizations := _waveform_polarizations;
              data_settings := data_settings;
              domain := domain |}
  end.

(** [WaveformDataset(dataset_file, transform)] *)
Definition __init__ (disk : gmap string h5file) (dataset_file : string)
    (transform : option (sample → result sample)) : result t :=
  load transform (Present None) disk dataset_file.

Definition __len__ (self : t) : nat := length (_parameter_samples self).

(** The step guarded by ['_Vh' in self.__dict__]. *)
Definition apply_Vh (self : t) (data : sample) : result sample :=
  match _Vh self with
  | Absent => mret data
  | Present Vh =>
      plus ← matmul_attr (h_plus (waveform data)) Vh;
      cross ← matmul_attr (h_cross (waveform data)) Vh;
      mret {| parameters := parameters data;
              waveform := {| h_plus := plus; h_cross := cross |} |}
  end.

(** The two table look-ups of [__getitem__]. *)
Definition raw_sample (self : t) (idx : Z) : result sample :=
  parameters ← iloc (_parameter_samples self) idx;
  waveform_polarizations ← iloc (_waveform_polarizations self) idx;
  mret {| parameters := parameters; waveform := waveform_polarizations |}.

Definition __getitem__ (self : t) (idx : Z) : result sample :=
  data ← raw_sample self idx;
  data ← apply_Vh self data;
  match transform self with
  | Some f => f data
  | None => mret data
  end.

(** *** A file or a dataset with another parameter table *)

Definition with_parameters (fp : h5file) (a : parameter_array) : h5file :=
  {| h5_parameters := Some a;
     h5_waveform_polarizations := h5_waveform_polarizations fp;
     h5_rb_matrix_V := h5_rb_matrix_V fp;
     h5_attrs := h5_attrs fp |}.

Definition with_parameter_samples (self : t) (df : list parameters_dict)
    : t :=
  {| transform := transform self;
     _Vh := _Vh self;
     _parameter_samples := df;
     _waveform_polarizations := _waveform_polarizations self;
     data_settings := data_settings self;
     domain := domain self |}.

(** *** The basis step, worded through [SVDBasis] *)

Definition with_waveform (data : sample) (plus cross : ndarray C) : sample :=
  {| parameters := parameters data;
     waveform := {| h_plus := plus; h_cross := cross |} |}.

(** The step as the specification words it: both polarizations go through
    [SVDBasis.fseries_to_basis_coefficients]. *)
Definition project_step (basis : SVDBasis.t C) (data : sample)
    : result sample :=
  plus ← SVDBasis.fseries_to_basis_coefficients basis
           (h_plus (waveform data));
  cross ← SVDBasis.fseries_to_basis_coefficients basis
            (h_cross (waveform data));
  mret (with_waveform data plus cross).

(** The same with [SVDBasis.basis_coefficients_to_fseries]. *)
Definition reconstruct_step (basis : SVDBasis.t C) (data : sample)
    : result sample :=
  plus ← SVDBasis.basis_coefficients_to_fseries basis
           (h_plus (waveform data));
  cross ← SVDBasis.basis_coefficients_to_fseries basis
            (h_cross (waveform data));
  mret (with_waveform data plus cross).

(** The basis object that holds the matrix [v]: a new [SVDBasis] after
    [from_file] on a file that contains [v]. *)
Definition basis_of (v : matrix C) : SVDBasis.t C :=
  (SVDBasis.from_file "V.npy" {[ "V.npy" := v ]} SVDBasis.__init__).2.

(** *** The keys [load] needs *)

(** The first of the keys that [load] subscripts, in the order it does,
    that the file lacks. *)
Definition first_missing (fp : h5file) : option string :=
  match h5_parameters fp with
  | None => Some "parameters"
  | Some _ =>
      match h5_waveform_polarizations fp with
      | None => Some "waveform_polarizations"
      | Some grp =>
          match grp !! "h_plus" with
          | None => Some "h_plus"
          | Some _ =>
              match grp !! "h_cross" with
              | None => Some "h_cross"
              | Some _ => None
              end
          end
      end
  end.

End Defs.

Arguments parameter_array C : clear implicits.
Arguments h5file C : clear implicits.
Arguments parameters_dict C : clear implicits.
Arguments waveform_dict C : clear implicits.
Arguments sample C : clear implicits.
Arguments t C : clear implicits.
Arguments transform {C Settings Domain} self : rename.
Arguments _Vh {C Settings Domain} self : rename.
Arguments _parameter_samples {C Settings Domain} self : rename.
Arguments _waveform_polarizations {C Settings Domain} self : rename.
Arguments data_settings {C Settings Domain} self : rename.
Arguments domain {C Settings Domain} self : rename.
Arguments __len__ {C Settings Domain} self.
Arguments apply_Vh {C _ Settings Domain} self data.
Arguments raw_sample {C Settings Domain} self idx.
Arguments __getitem__ {C _ Settings Domain} self idx.
Arguments with_parameter_samples {C Settings Domain} self df.
End WaveformDataset.

(** ** Concrete data *)

(** Gaussian integers: exact complex arithmetic for concrete runs. *)
Definition gauss : Type := Z * Z.

#[global] Program Instance gauss_scalar : Scalar gauss := {|
  czero := (0, 0);
  cadd x y := (x.1 + y.1, x.2 + y.2);
  cmul x y := (x.1 * y.1 - x.2 * y.2, x.1 * y.2 + x.2 * y.1);
  cconj x := (x.1, - x.2);
  cast d x := if is_complex d then x else (x.1, 0)
|}.
Next Obligation. intros [a b]; simpl. f_equal. lia. Qed.

Module Examples.
Import WaveformDataset.

(** [re + im j] *)
Definition cx (re im : Z) : gauss := (re, im).

(** *** Decompositions of unitary matrices

    For a unitary [a], [a = I @ diag(1, …, 1) @ a] is a singular value
    decomposition of [a], and its leading [k] rows give a rank-[k]
    truncation.  These two functions return them; they stand for
    [scipy.linalg.svd] and [randomized_svd] on the unitary training
    matrices below, and raise on arrays they are not meant for.  A rank
    above the number of rows gives all the rows and no more:
    [randomized_svd] returns the slice [Vt[:n_components]] of a
    decomposition that has at most [min(M.shape)] rows. *)

Definition identity (d : dtype) (k : nat) : matrix gauss :=
  {| mdtype := d;
     mshape := (k, k);
     mrows := (λ i, (λ j, if Nat.eqb i j then cx 1 0 else cx 0 0)
                      <$> seq 0 k) <$> seq 0 k |}.

Definition ones (d : dtype) (k : nat) : vector gauss :=
  {| vdtype := d; vdata := replicate k (cx 1 0) |}.

Definition real_of (d : dtype) : dtype :=
  if is_double d then float64 else float32.

Definition squareb (a : matrix gauss) : bool :=
  wf_matrixb a && Nat.eqb (mshape a).1 (mshape a).2.

Definition unitary_svd (a : matrix gauss)
    : result (SVDBasis.svd_result gauss) :=
  if squareb a
  then mret {| SVDBasis.svd_U := identity (mdtype a) (mshape a).1;
               SVDBasis.svd_s := ones (real_of (mdtype a)) (mshape a).1;
               SVDBasis.svd_Vh := a |}
  else raise (LinAlgError "not a square array").

Definition unitary_rsvd (a : matrix gauss) (k : Z)
    : result (SVDBasis.svd_result gauss) :=
  if squareb a && (0 <=? k)
  then mret {| SVDBasis.svd_U :=
                 slice_cols k (identity (mdtype a) (mshape a).1);
               SVDBasis.svd_s :=
                 ones (real_of (mdtype a)) (slice_stop k (mshape a).1);
               SVDBasis.svd_Vh := slice_rows k a |}
  else raise (ValueError "n_components out of range").

(** A unitary training matrix: the rows [[0, 1j]] and [[1, 0]]. *)
Definition unitary2 : matrix gauss :=
  {| mdtype := complex128;
     mshape := (2%nat, 2%nat);
     mrows := [[cx 0 0; cx 0 1]; [cx 1 0; cx 0 0]] |}.

(** *** Dataset files *)

(** The settings string is kept as it is, and the domain is its
    [domain_settings] entry. *)
Definition keep_literal (s : string) : result string := mret s.
Definition keep_subscript (s : string) (key : string) : result string :=
  mret s.
Definition keep_domain (s : string) : result string := mret s.

Definition settings_attr : gmap string string :=
  {[ "settings" := "{'domain_settings': {}}" ]}.

(** Three samples with the parameters [m1], [m2] and the two-element
    waveform [[1+0j, 0+1j]] for both polarizations. *)
Definition three_parameters : parameter_array gauss :=
  {| names := ["m1"; "m2"];
     records := [[cx 30 0; cx 25 0]; [cx 31 0; cx 26 0]; [cx 32 0; cx 27 0]] |}.

Definition three_waveforms : matrix gauss :=
  {| mdtype := complex128;
     mshape := (3%nat, 2%nat);
     mrows := [[cx 1 0; cx 0 1]; [cx 1 0; cx 0 1]; [cx 1 0; cx 0 1]] |}.

Definition two_waveforms : matrix gauss :=
  {| mdtype := complex128;
     mshape := (2%nat, 2%nat);
     mrows := [[cx 1 0; cx 0 1]; [cx 1 0; cx 0 1]] |}.

Definition polarizations (a : matrix gauss) : gmap string (matrix gauss) :=
  {[ "h_plus" := a; "h_cross" := a ]}.

(** No persisted basis. *)
Definition plain_file : h5file gauss :=
  {| h5_parameters := Some three_parameters;
     h5_waveform_polarizations := Some (polarizations three_waveforms);
     h5_rb_matrix_V := None;
     h5_attrs := settings_attr |}.

(** With the unitary matrix above as [rb_matrix_V]. *)
Definition basis_file : h5file gauss :=
  {| h5_parameters := Some three_parameters;
     h5_waveform_polarizations := Some (polarizations three_waveforms);
     h5_rb_matrix_V := Some unitary2;
     h5_attrs := settings_attr |}.

(** Three parameter records, two waveforms. *)
Definition mismatched_file : h5file gauss :=
  {| h5_parameters := Some three_parameters;
     h5_waveform_polarizations := Some (polarizations two_waveforms);
     h5_rb_matrix_V := None;
     h5_attrs := settings_attr |}.

(** The waveform group has no [h_plus]. *)
Definition cross_only : gmap string (matrix gauss) :=
  {[ "h_cross" := three_waveforms ]}.

Definition no_plus_file : h5file gauss :=
  {| h5_parameters := Some three_parameters;
     h5_waveform_polarizations := Some cross_only;
     h5_rb_matrix_V := None;
     h5_attrs := settings_attr |}.

Definition disk : gmap string (h5file gauss) :=
  {[ "plain.h5" := plain_file;
     "basis.h5" := basis_file;
     "mismatched.h5" := mismatched_file;
     "no_plus.h5" := no_plus_file ]}.

Definition open_dataset (dataset_file : string)
    : result (t gauss string string) :=
  __init__ string string keep_literal keep_subscript keep_domain
           disk dataset_file None.

(** The objects that [open_dataset] builds from these files. *)
Definition dataset_of (Vh : option (matrix gauss)) (a : parameter_array gauss)
    (w : matrix gauss) : t gauss string string :=
  {| transform := None;
     _Vh := Present Vh;
     _parameter_samples := DataFrame_of_records a;
     _waveform_polarizations := zip_with Waveform (rows_of w) (rows_of w);
     data_settings := "{'domain_settings': {}}";
     domain := "{'domain_settings': {}}" |}.

Definition plain_dataset : t gauss string string :=
  dataset_of None three_parameters three_waveforms.

Definition basis_dataset : t gauss string string :=
  dataset_of (Some (conj (transpose unitary2))) three_parameters
             three_waveforms.

Definition mismatched_dataset : t gauss string string :=
  dataset_of None three_parameters two_waveforms.

Definition row_vector (l : list gauss) : ndarray gauss :=
  Arr1 {| vdtype := complex128; vdata := l |}.

(** The second row of the tables. *)
Definition second_sample : sample gauss :=
  {| parameters := [("m1", cx 31 0); ("m2", cx 26 0)];
     waveform := {| h_plus := row_vector [cx 1 0; cx 0 1];
                    h_cross := row_vector [cx 1 0; cx 0 1] |} |}.

(** A basis object that holds the unitary matrix. *)
Definition unitary_basis : SVDBasis.t gauss :=
  {| SVDBasis.V := Some unitary2;
     SVDBasis.Vh := Some (conj (transpose unitary2));
     SVDBasis.n := Some 2 |}.

(** What [unitary_svd] returns on the unitary matrix. *)
Definition unitary2_svd : SVDBasis.svd_result gauss :=
  {| SVDBasis.svd_U := identity complex128 2;
     SVDBasis.svd_s := ones float64 2;
     SVDBasis.svd_Vh := unitary2 |}.

(** *** A truncated basis

    One orthonormal column in two dimensions, and a file that holds it
    beside waveforms of length two. *)
Definition column2 : matrix gauss :=
  {| mdtype := complex128;
     mshape := (2%nat, 1%nat);
     mrows := [[cx 1 0]; [cx 0 0]] |}.

Definition column_basis : SVDBasis.t gauss :=
  {| SVDBasis.V := Some column2;
     SVDBasis.Vh := Some (conj (transpose column2));
     SVDBasis.n := Some 1 |}.

Definition truncated_file : h5file gauss :=
  {| h5_parameters := Some three_parameters;
     h5_waveform_polarizations := Some (polarizations three_waveforms);
     h5_rb_matrix_V := Some column2;
     h5_attrs := settings_attr |}.

Definition truncated_disk : gmap string (h5file gauss) :=
  {[ "truncated.h5" := truncated_file ]}.

Definition truncated_dataset : t gauss string string :=
  dataset_of (Some (conj (transpose column2))) three_parameters
             three_waveforms.

(** Two rows for [h_plus], three for [h_cross]. *)
Definition unequal_group : gmap string (matrix gauss) :=
  {[ "h_plus" := two_waveforms; "h_cross" := three_waveforms ]}.

Definition unequal_file : h5file gauss :=
  {| h5_parameters := Some three_parameters;
     h5_waveform_polarizations := Some unequal_group;
     h5_rb_matrix_V := None;
     h5_attrs := settings_attr |}.

Definition unequal_disk : gmap string (h5file gauss) :=
  {[ "unequal.h5" := unequal_file ]}.

(** What the method ['scipy'] stores for the unitary matrix and the
    rank 1. *)
Definition rank_one_basis : SVDBasis.t gauss :=
  {| SVDBasis.V := Some (conj (transpose (leading_rows 1 unitary2)));
     SVDBasis.Vh := Some (leading_rows 1 unitary2);
     SVDBasis.n := Some 1 |}.

(** The second sample after the basis step of [basis_dataset]. *)
Definition second_sample_through_Vh : sample gauss :=
  with_waveform second_sample (row_vector [cx 1 0; cx 1 0])
                              (row_vector [cx 1 0; cx 1 0]).

(** A real training matrix with two rows and two columns, unitary as
    well: the rows [[0., 1.]] and [[1., 0.]]. *)
Definition swap2 : matrix gauss :=
  {| mdtype := float64;
     mshape := (2%nat, 2%nat);
     mrows := [[cx 0 0; cx 1 0]; [cx 1 0; cx 0 0]] |}.

(** A decomposition that has not converged. *)
Definition failing_svd (a : matrix gauss)
    : result (SVDBasis.svd_result gauss) :=
  raise (LinAlgError "SVD did not converge").

(** A training matrix with one row: one singular vector is available. *)
Definition one_row : matrix gauss :=
  {| mdtype := complex128;
     mshape := (1%nat, 2%nat);
     mrows := [[cx 1 0; cx 0 0]] |}.

(** A row of norm one is its own right-singular vector:
    [one_row = [[1]] @ diag(1) @ one_row]. *)
Definition one_row_svd : SVDBasis.svd_result gauss :=
  {| SVDBasis.svd_U := identity complex128 1;
     SVDBasis.svd_s := ones float64 1;
     SVDBasis.svd_Vh := one_row |}.

Definition row_svd (a : matrix gauss) : result (SVDBasis.svd_result gauss) :=
  if wf_matrixb a && Nat.eqb (mshape a).1 1
  then mret {| SVDBasis.svd_U := identity (mdtype a) 1;
               SVDBasis.svd_s := ones (real_of (mdtype a)) 1;
               SVDBasis.svd_Vh := a |}
  else raise (LinAlgError "not a row").

End Examples.

(** * Properties *)

(** ** Arrays *)

Section ArrayLemmas.
Context {C : Type} `{Scalar C}.
Implicit Types (m : matrix C) (k : Z).

Lemma slice_stop_le k len : (slice_stop k len ≤ len)%nat.
Proof. unfold slice_stop. destruct (k <? 0) eqn:E; lia. Qed.

Lemma slice_stop_nonneg k len :
  0 ≤ k → slice_stop k len = Nat.min (Z.to_nat k) len.
Proof.
  intros Hk. unfold slice_stop.
  destruct (k <? 0) eqn:E; [apply Z.ltb_lt in E; lia | done].
Qed.

Lemma wf_matrixb_spec m : wf_matrixb m = true ↔ wf_matrix m.
Proof.
  unfold wf_matrixb, wf_matrix.
  rewrite andb_true_iff, Nat.eqb_eq, forallb_forall, Forall_forall.
  split; intros [Hl Hr]; split; try done; intros r Hin.
  - apply Nat.eqb_eq, Hr. by apply list_elem_of_In.
  - apply Nat.eqb_eq, Hr. by apply list_elem_of_In.
Qed.

(** An entry of a rectangular array, by position. *)
Lemma wf_row m i r :
  wf_matrix m → mrows m !! i = Some r → length r = (mshape m).2.
Proof.
  intros [_ Hall] Hi. rewrite Forall_lookup in Hall. by eapply Hall.
Qed.

Lemma wf_conj_transpose m :
  wf_matrix m → wf_matrix (conj (transpose m)).
Proof.
  intros [Hlen _]. split; simpl.
  - by rewrite !length_fmap, length_seq.
  - apply Forall_fmap, Forall_fmap, Forall_forall. intros j _. simpl.
    by rewrite !length_fmap.
Qed.

Lemma wf_astype d m : wf_matrix m → wf_matrix (astype d m).
Proof.
  intros [Hlen Hall]. split; simpl.
  - by rewrite length_fmap.
  - apply Forall_fmap. eapply Forall_impl; [exact Hall |].
    intros r Hr. simpl. by rewrite length_fmap.
Qed.

Lemma wf_slice_rows k m : wf_matrix m → wf_matrix (slice_rows k m).
Proof.
  intros [Hlen Hall]. split; simpl.
  - rewrite length_take, Hlen. pose proof (slice_stop_le k (mshape m).1). lia.
  - by apply Forall_take.
Qed.

Lemma wf_slice_cols k m : wf_matrix m → wf_matrix (slice_cols k m).
Proof.
  intros [Hlen Hall]. split; simpl.
  - by rewrite length_fmap.
  - apply Forall_fmap. eapply Forall_impl; [exact Hall |].
    intros r Hr. simpl. rewrite length_take, Hr.
    pose proof (slice_stop_le k (mshape m).2). lia.
Qed.

(** [m.T.conj().T.conj()] is [m]. *)
Lemma conj_transpose_involutive m :
  wf_matrix m → conj (transpose (conj (transpose m))) = m.
Proof.
  intros Hwf. destruct Hwf as [Hlen Hall].
  destruct m as [d [r c] rows]; simpl in *. unfold conj, transpose; simpl.
  f_equal. apply list_eq. intros i.
  rewrite !list_lookup_fmap.
  destruct (decide (i < r)%nat) as [Hi | Hi].
  - rewrite lookup_seq_lt by done. simpl.
    destruct (lookup_lt_is_Some_2 rows i) as [row Hrow]; [lia |].
    rewrite Hrow. f_equal.
    assert (length row = c) as Hc.
    { rewrite Forall_lookup in Hall. by eapply Hall. }
    apply list_eq. intros j.
    rewrite !list_lookup_fmap.
    destruct (decide (j < c)%nat) as [Hj | Hj].
    + rewrite lookup_seq_lt by done. simpl.
      destruct (lookup_lt_is_Some_2 row j) as [x Hx]; [lia |].
      rewrite Hx. f_equal.
      rewrite nth_lookup, !list_lookup_fmap, Hrow. simpl.
      rewrite (nth_lookup_Some _ _ _ _ Hx). apply cconj_involutive.
    + rewrite lookup_seq_ge by lia. simpl. symmetry.
      apply lookup_ge_None. lia.
  - rewrite lookup_seq_ge by lia. simpl. symmetry.
    apply lookup_ge_None. lia.
Qed.

(** Slicing commutes with the conjugate transpose:
    [m[:, :k].T.conj()] is [m.T.conj()[:k, :]]. *)
Lemma conj_transpose_slice_cols k m :
  conj (transpose (slice_cols k m)) = slice_rows k (conj (transpose m)).
Proof.
  destruct m as [d [r c] rows]. unfold conj, transpose, slice_cols, slice_rows.
  simpl. f_equal.
  rewrite <- !fmap_take, take_seq.
  rewrite (Nat.min_l _ _ (slice_stop_le k c)).
  f_equal. apply list_fmap_ext. intros i j Hj.
  apply lookup_seq in Hj as [-> Hj]. simpl.
  rewrite <- list_fmap_compose. apply list_fmap_ext. intros i' row _. simpl.
  rewrite !nth_lookup, lookup_take_lt; done.
Qed.

(** A slice that asks for every row returns the array. *)
Lemma slice_rows_all k m :
  wf_matrix m → Z.of_nat (mshape m).1 ≤ k → slice_rows k m = m.
Proof.
  intros [Hlen _] Hk. destruct m as [d [r c] rows]; simpl in *.
  unfold slice_rows; simpl.
  rewrite slice_stop_nonneg by lia.
  rewrite Nat.min_r by lia. f_equal. apply take_ge. lia.
Qed.

Lemma leading_rows_all m :
  wf_matrix m → leading_rows (mshape m).1 m = m.
Proof.
  intros [Hlen _]. destruct m as [d [r c] rows]; simpl in *.
  unfold leading_rows; simpl. f_equal. apply take_ge. lia.
Qed.

End ArrayLemmas.

(** ** SVDBasis *)

Section BasisTheorems.
Context {C : Type} `{Scalar C}.
Variable scipy_linalg_svd : matrix C → result (SVDBasis.svd_result C).
Variable randomized_svd : matrix C → Z → result (SVDBasis.svd_result C).

Abbreviation generate_basis :=
  (SVDBasis.generate_basis scipy_linalg_svd randomized_svd).
Abbreviation populates := (SVDBasis.populates scipy_linalg_svd randomized_svd).
Abbreviation unpopulated :=
  (SVDBasis.unpopulated scipy_linalg_svd randomized_svd).

Implicit Types (b : SVDBasis.t C) (td : matrix C) (k : Z).

(** What the two branches store. *)
Lemma generate_basis_random td k b r :
  randomized_svd td (SVDBasis.resolved_rank td k) = inr r →
  generate_basis td k "random" b =
    (inr (),
     {| SVDBasis.V :=
          Some (conj (transpose (astype complex64 (SVDBasis.svd_Vh r))));
        SVDBasis.Vh := Some (astype complex64 (SVDBasis.svd_Vh r));
        SVDBasis.n := Some (SVDBasis.resolved_rank td k) |}).
Proof.
  intros Hr. unfold SVDBasis.generate_basis, SVDBasis.resolved_rank in *.
  simpl. by rewrite Hr.
Qed.

Lemma generate_basis_scipy_all td k b r :
  scipy_linalg_svd td = inr r →
  k = 0 ∨ Z.of_nat (mshape (SVDBasis.svd_Vh r)).2 < k →
  generate_basis td k "scipy" b =
    (inr (),
     {| SVDBasis.V := Some (conj (transpose (SVDBasis.svd_Vh r)));
        SVDBasis.Vh := Some (SVDBasis.svd_Vh r);
        SVDBasis.n := Some (Z.of_nat (mshape (SVDBasis.svd_Vh r)).1) |}).
Proof.
  intros Hr Hk. unfold SVDBasis.generate_basis. simpl. rewrite Hr.
  unfold len_matrix. simpl.
  replace ((k =? 0) || (k >? Z.of_nat (mshape (SVDBasis.svd_Vh r)).2))
    with true; [done |].
  symmetry. apply orb_true_iff. rewrite Z.eqb_eq, Z.gtb_gt. lia.
Qed.

Lemma generate_basis_scipy_slice td k b r :
  scipy_linalg_svd td = inr r →
  k ≠ 0 → k ≤ Z.of_nat (mshape (SVDBasis.svd_Vh r)).2 →
  generate_basis td k "scipy" b =
    (inr (),
     {| SVDBasis.V :=
          Some (slice_cols k (conj (transpose (SVDBasis.svd_Vh r))));
        SVDBasis.Vh := Some (slice_rows k (SVDBasis.svd_Vh r));
        SVDBasis.n :=
          Some (Z.of_nat (slice_stop k (mshape (SVDBasis.svd_Vh r)).1)) |}).
Proof.
  intros Hr Hk0 Hk. unfold SVDBasis.generate_basis. simpl. rewrite Hr.
  unfold len_matrix. simpl.
  replace ((k =? 0) || (k >? Z.of_nat (mshape (SVDBasis.svd_Vh r)).2))
    with false; [done |].
  symmetry. apply orb_false_iff. rewrite Z.eqb_neq.
  split; [done |].
  destruct (Z.gtb_spec k (Z.of_nat (mshape (SVDBasis.svd_Vh r)).2));
    [lia | done].
Qed.

(** A call that raises leaves the object as it was. *)
Lemma generate_basis_raises td k method b e b' :
  generate_basis td k method b = (inl e, b') → b' = b.
Proof.
  unfold SVDBasis.generate_basis.
  destruct (String.eqb method "random").
  - destruct (randomized_svd _ _); intros [= ]; done.
  - destruct (String.eqb method "scipy").
    + destruct (scipy_linalg_svd _); [intros [= ]; done |].
      destruct (_ || _); intros [= ].
    + intros [= ]; done.
Qed.

Lemma from_file_missing filename (disk : gmap string (matrix C)) b :
  disk !! filename = None →
  SVDBasis.from_file filename disk b
    = (raise (FileNotFoundError filename), b).
Proof. intros Hnone. unfold SVDBasis.from_file. by rewrite Hnone. Qed.

Lemma unpopulated_init b : unpopulated b → b = SVDBasis.__init__.
Proof.
  induction 1 as [| td k method b e b' _ IH Hg
                 | filename disk b e b' _ IH Hnone Hf].
  - done.
  - apply generate_basis_raises in Hg. congruence.
  - rewrite (from_file_missing _ _ _ Hnone) in Hf. congruence.
Qed.

Lemma unpopulated_None b :
  unpopulated b → SVDBasis.V b = None ∧ SVDBasis.Vh b = None.
Proof. intros Hb. by rewrite (unpopulated_init _ Hb). Qed.

(** The sliced pair of the ['scipy'] branch is a conjugate-transpose pair. *)
Lemma slice_pair k (vh : matrix C) :
  wf_matrix vh →
  slice_cols k (conj (transpose vh)) = conj (transpose (slice_rows k vh)).
Proof.
  intros Hwf.
  rewrite <- (conj_transpose_involutive (slice_cols k (conj (transpose vh))))
    by by apply wf_slice_cols, wf_conj_transpose.
  by rewrite conj_transpose_slice_cols, conj_transpose_involutive.
Qed.

(** C4.  On a basis object on which nothing has been generated or loaded,
    that is, whose [V] and [Vh] are the [None] that [__init__] gave them,
    both [fseries_to_basis_coefficients] (project) and
    [basis_coefficients_to_fseries] (reconstruct) raise, whatever array
    they are given: the right operand of [@] is [None]. *)
Theorem uninitialized_basis_raises b (x : ndarray C) :
  SVDBasis.V b = None →
  SVDBasis.Vh b = None →
  SVDBasis.fseries_to_basis_coefficients b x
    = raise (ValueError none_operand_msg) ∧
  SVDBasis.basis_coefficients_to_fseries b x
    = raise (ValueError none_operand_msg).
Proof.
  intros HV HVh.
  unfold SVDBasis.fseries_to_basis_coefficients,
    SVDBasis.basis_coefficients_to_fseries.
  by rewrite HV, HVh.
Qed.

(** C7.  A method other than ['random'] and ['scipy'] makes
    [generate_basis] raise the unsupported-method [ValueError], and the
    stored [V], [Vh] and [n] are what they were before the call. *)
Theorem generate_basis_unsupported td k method b :
  method ≠ "random" → method ≠ "scipy" →
  generate_basis td k method b
    = (raise (ValueError (SVDBasis.unsupported_msg method)), b).
Proof.
  intros Hrandom Hscipy. unfold SVDBasis.generate_basis.
  apply String.eqb_neq in Hrandom, Hscipy.
  by rewrite Hrandom, Hscipy.
Qed.

(** C6.  With the method ['scipy'] and a requested rank [k ≥ 0], on a
    decomposition whose [Vh] has [avail] rows (at most as many as it has
    columns, as the economy decomposition returns), [generate_basis]
    stores the leading [rank] rows of [Vh], in the order of the
    decomposition (by descending singular value), and as [V] their
    conjugate transpose, where [rank] is [avail] for [k = 0] and
    [min k avail] otherwise; it stores [rank] as [n]; and for [k = 0] or
    [k > avail] it keeps every singular vector. *)
Theorem generate_basis_scipy_truncates td k b r :
  0 ≤ k →
  scipy_linalg_svd td = inr r →
  wf_matrix (SVDBasis.svd_Vh r) →
  ((mshape (SVDBasis.svd_Vh r)).1 ≤ (mshape (SVDBasis.svd_Vh r)).2)%nat →
  let vh := SVDBasis.svd_Vh r in
  let avail := (mshape vh).1 in
  let rank := if k =? 0 then avail else Nat.min (Z.to_nat k) avail in
  ∃ b',
    generate_basis td k "scipy" b = (inr (), b') ∧
    SVDBasis.Vh b' = Some (leading_rows rank vh) ∧
    SVDBasis.V b' = Some (conj (transpose (leading_rows rank vh))) ∧
    SVDBasis.n b' = Some (Z.of_nat rank) ∧
    (k = 0 ∨ Z.of_nat avail < k →
     SVDBasis.Vh b' = Some vh ∧ SVDBasis.V b' = Some (conj (transpose vh))).
Proof.
  intros Hk Hr Hwf Hshape. cbv zeta.
  pose proof (generate_basis_scipy_all td k b r Hr) as Hwhole.
  pose proof (generate_basis_scipy_slice td k b r Hr) as Hsliced.
  remember (SVDBasis.svd_Vh r) as vh eqn:Hvh.
  remember (mshape vh).1 as avail eqn:Havail.
  remember (if k =? 0 then avail else Nat.min (Z.to_nat k) avail) as rank
    eqn:Hrk.
  pose proof (leading_rows_all _ Hwf) as Hall. rewrite <- Havail in Hall.
  assert (k = 0 ∨ Z.of_nat avail < k → rank = avail) as Hrank.
  { intros Hmany. subst rank. destruct (Z.eqb_spec k 0); lia. }
  destruct (decide (k = 0 ∨ Z.of_nat (mshape vh).2 < k)) as [Hcase | Hcase].
  - eexists. split; [by apply Hwhole |]. simpl.
    rewrite Hrank by lia. by rewrite Hall.
  - eexists. split; [apply Hsliced; lia |]. simpl.
    assert (slice_stop k avail = rank) as Hstop.
    { rewrite slice_stop_nonneg by done.
      subst rank. destruct (Z.eqb_spec k 0); [lia | done]. }
    assert (slice_rows k vh = leading_rows rank vh) as Hslice.
    { unfold slice_rows, leading_rows. by rewrite <- Havail, Hstop. }
    rewrite slice_pair by done. rewrite Hslice, Hstop.
    do 3 (split; [done |]).
    intros Hmany. by rewrite (Hrank Hmany), Hall.
Qed.

(** C5.  With the method ['scipy'] the stored [V] and [Vh] have the dtype
    of the [Vh] that the decomposition returned: the branch casts
    nothing. *)
Theorem generate_basis_scipy_keeps_dtype td k b r :
  scipy_linalg_svd td = inr r →
  ∃ b' v vh,
    generate_basis td k "scipy" b = (inr (), b') ∧
    SVDBasis.V b' = Some v ∧ SVDBasis.Vh b' = Some vh ∧
    mdtype v = mdtype (SVDBasis.svd_Vh r) ∧
    mdtype vh = mdtype (SVDBasis.svd_Vh r).
Proof.
  intros Hr.
  destruct (decide (k = 0 ∨ Z.of_nat (mshape (SVDBasis.svd_Vh r)).2 < k))
    as [Hk | Hk].
  - eexists _, _, _. split; [by apply generate_basis_scipy_all |]. done.
  - eexists _, _, _.
    split; [apply generate_basis_scipy_slice; (done || lia) |]. done.
Qed.

(** With the method ['random'] they are [complex64]. *)
Lemma generate_basis_random_dtype td k b r :
  randomized_svd td (SVDBasis.resolved_rank td k) = inr r →
  ∃ b' v vh,
    generate_basis td k "random" b = (inr (), b') ∧
    SVDBasis.V b' = Some v ∧ SVDBasis.Vh b' = Some vh ∧
    mdtype v = complex64 ∧ mdtype vh = complex64.
Proof.
  intros Hr. eexists _, _, _.
  split; [by apply generate_basis_random |]. done.
Qed.

(** The ['random'] branch stores the rank it asked for, not the number of
    rows it was given back. *)
Lemma generate_basis_random_rank td k b r :
  randomized_svd td (SVDBasis.resolved_rank td k) = inr r →
  ∃ b' vh,
    generate_basis td k "random" b = (inr (), b') ∧
    SVDBasis.Vh b' = Some vh ∧
    (mshape vh).1 = (mshape (SVDBasis.svd_Vh r)).1 ∧
    SVDBasis.n b' = Some (SVDBasis.resolved_rank td k).
Proof.
  intros Hr. eexists _, _.
  split; [by apply generate_basis_random |]. done.
Qed.

(** After a call that generates or loads a basis, [Vh] is the conjugate
    transpose of [V]. *)
Lemma populates_conj_transpose b b' :
  populates b b' →
  ∃ v vh,
    SVDBasis.V b' = Some v ∧ SVDBasis.Vh b' = Some vh ∧
    vh = conj (transpose v).
Proof.
  inversion 1 as [td k b0 b1 r Hr Hwf Hg
                 | td k b0 b1 r Hr Hwf Hg
                 | filename disk b0 b1 Hdisk Hf]; subst.
  - rewrite (generate_basis_random _ _ _ _ Hr) in Hg.
    injection Hg as <-. eexists _, _. split_and!; [done | done |]. simpl.
    by rewrite conj_transpose_involutive by by apply wf_astype.
  - destruct (decide (k = 0 ∨ Z.of_nat (mshape (SVDBasis.svd_Vh r)).2 < k))
      as [Hk | Hk].
    + rewrite (generate_basis_scipy_all _ _ _ _ Hr Hk) in Hg.
      injection Hg as <-. eexists _, _. split_and!; [done | done |]. simpl.
      by rewrite conj_transpose_involutive.
    + rewrite (generate_basis_scipy_slice _ _ _ _ Hr) in Hg by lia.
      injection Hg as <-. eexists _, _. split_and!; [done | done |]. simpl.
      by rewrite conj_transpose_slice_cols, conj_transpose_involutive.
  - unfold SVDBasis.from_file in Hf.
    destruct (disk !! filename) as [v |] eqn:Hv; [| done].
    injection Hf as <-. by eexists _, _.
Qed.

(** C9.  The invariant does not hold after [generate_basis] with the
    method ['random']: the branch stores the requested rank as [n] and
    does not measure the array, so whenever [randomized_svd] returns a
    [Vh] with another number of rows than requested (as it does for a
    rank above [min(training_data.shape)]), the stored [n] is neither the
    number of columns of [V] nor the number of rows of [Vh]. *)
Theorem generate_basis_random_rank_unmeasured td k b r :
  randomized_svd td (SVDBasis.resolved_rank td k) = inr r →
  Z.of_nat (mshape (SVDBasis.svd_Vh r)).1 ≠ SVDBasis.resolved_rank td k →
  ∃ b' v vh rank,
    generate_basis td k "random" b = (inr (), b') ∧
    SVDBasis.V b' = Some v ∧ SVDBasis.Vh b' = Some vh ∧
    SVDBasis.n b' = Some rank ∧
    (mshape v).2 = (mshape (SVDBasis.svd_Vh r)).1 ∧
    (mshape vh).1 = (mshape (SVDBasis.svd_Vh r)).1 ∧
    rank = SVDBasis.resolved_rank td k ∧
    rank ≠ Z.of_nat (mshape v).2 ∧ rank ≠ Z.of_nat (mshape vh).1.
Proof.
  intros Hr Hrows. eexists _, _, _, _.
  split; [by apply generate_basis_random |]. simpl.
  split_and!; try done; by intros Heq; apply Hrows.
Qed.


(** A name that ends in [.npy] is the name [np.save] writes to. *)
Lemma npy_path_npy filename :
  ends_with ".npy" filename = true → npy_path filename = filename.
Proof. intros Hnpy. unfold npy_path. by rewrite Hnpy. Qed.

End BasisTheorems.

(** ** WaveformDataset *)

Section DatasetTheorems.
Context {C : Type} `{Scalar C}.
Variables Settings Domain : Type.
Variable literal_eval : string → result Settings.
Variable subscript : Settings → string → result Settings.
Variable build_domain : Settings → result Domain.

Import WaveformDataset.

Abbreviation load :=
  (WaveformDataset.load Settings Domain literal_eval subscript build_domain).
Abbreviation __init__ :=
  (WaveformDataset.__init__ Settings Domain literal_eval subscript
     build_domain).
Abbreviation dataset := (WaveformDataset.t C Settings Domain).

Implicit Types (ds : dataset) (fp : h5file C) (idx : Z).

(** Unfold the binds of a computation in [result], case by case. *)
Ltac result_cases :=
  unfold mbind, result_bind, mret, result_ret, raise, getkey in *;
  repeat case_match; simplify_eq; try done.

(** What a successful [load] has put in [transform] and [_Vh]. *)
Lemma load_attrs tr vh (disk : gmap string (h5file C)) file fp ds :
  disk !! file = Some fp →
  load tr vh disk file = inr ds →
  transform ds = tr ∧
  _Vh ds = match h5_rb_matrix_V fp with
           | Some v => Present (Some (conj (transpose v)))
           | None => vh
           end.
Proof.
  intros Hfp Hload. unfold WaveformDataset.load in Hload.
  rewrite Hfp in Hload. result_cases.
Qed.

Lemma basis_of_eq (v : matrix C) :
  basis_of v =
    {| SVDBasis.V := Some v;
       SVDBasis.Vh := Some (conj (transpose v));
       SVDBasis.n := Some (Z.of_nat (mshape v).2) |}.
Proof.
  unfold basis_of, SVDBasis.from_file.
  by rewrite lookup_singleton_eq.
Qed.

(** *** Indexing *)

Lemma iloc_negative {A} (df : list A) idx :
  - Z.of_nat (length df) ≤ idx < 0 →
  iloc df idx = iloc df (Z.of_nat (length df) + idx).
Proof.
  intros Hidx. unfold iloc.
  replace (idx <? - Z.of_nat (length df)) with false by lia.
  replace (Z.of_nat (length df) <=? idx) with false by lia.
  replace (Z.of_nat (length df) + idx <? - Z.of_nat (length df))
    with false by lia.
  replace (Z.of_nat (length df) <=? Z.of_nat (length df) + idx)
    with false by lia.
  replace (idx <? 0) with true by lia.
  replace (Z.of_nat (length df) + idx <? 0) with false by lia.
  done.
Qed.

Lemma iloc_in_range {A} (df : list A) idx :
  0 ≤ idx < Z.of_nat (length df) →
  ∃ row, df !! Z.to_nat idx = Some row ∧ iloc df idx = inr row.
Proof.
  intros Hidx. unfold iloc.
  replace (idx <? - Z.of_nat (length df)) with false by lia.
  replace (Z.of_nat (length df) <=? idx) with false by lia.
  replace (idx <? 0) with false by lia. simpl.
  destruct (lookup_lt_is_Some_2 df (Z.to_nat idx)) as [row Hrow]; [lia |].
  exists row. by rewrite Hrow.
Qed.

(** *** The basis step of [__getitem__] *)

(** C1, as the code has it.  On a dataset loaded from a file with a
    persisted matrix [V], [__getitem__] passes [h_plus] and [h_cross]
    through [basis_coefficients_to_fseries] (reconstruct, [x @ Vh]) of the
    basis object that holds [V], not through
    [fseries_to_basis_coefficients] (project, [x @ V]); this holds at every
    index, with the same errors on both sides. *)
Theorem getitem_reconstructs (disk : gmap string (h5file C)) file tr fp v
    ds idx :
  disk !! file = Some fp →
  h5_rb_matrix_V fp = Some v →
  __init__ disk file tr = inr ds →
  __getitem__ ds idx =
    (data ← raw_sample ds idx;
     data ← reconstruct_step (basis_of v) data;
     match transform ds with
     | Some f => f data
     | None => mret data
     end).
Proof.
  intros Hfp Hv Hinit.
  destruct (load_attrs _ _ _ _ _ _ Hfp Hinit) as [_ HVh].
  rewrite Hv in HVh.
  unfold WaveformDataset.__getitem__, apply_Vh, reconstruct_step,
    SVDBasis.basis_coefficients_to_fseries.
  by rewrite HVh, basis_of_eq.
Qed.

(** C2, as the code has it.  On a dataset loaded from a file without a
    persisted matrix, [_Vh] is in [self.__dict__] with the value [None]
    that [__init__] gave it, so [__getitem__] multiplies by [None] and
    raises at every index that the tables have. *)
Theorem getitem_without_basis_raises (disk : gmap string (h5file C)) file
    tr fp ds idx data :
  disk !! file = Some fp →
  h5_rb_matrix_V fp = None →
  __init__ disk file tr = inr ds →
  raw_sample ds idx = inr data →
  __getitem__ ds idx = raise (ValueError none_operand_msg).
Proof.
  intros Hfp Hv Hinit Hraw.
  destruct (load_attrs _ _ _ _ _ _ Hfp Hinit) as [_ HVh].
  rewrite Hv in HVh.
  unfold WaveformDataset.__getitem__, apply_Vh.
  by rewrite Hraw, HVh.
Qed.

(** *** What [load] checks *)

(** C3, as the code has it.  [load] raises a [KeyError] on a file whose
    waveform group has no [h_plus]; it does not compare the parameter
    table with the waveform table: when a file loads, it loads as well
    with any other parameter table in its place, whatever its number of
    records. *)
Theorem load_checks tr vh (disk : gmap string (h5file C)) file fp grp :
  disk !! file = Some fp →
  h5_waveform_polarizations fp = Some grp →
  (grp !! "h_plus" = None →
   ∃ key, load tr vh disk file = raise (KeyError key)) ∧
  (∀ a ds,
     load tr vh disk file = inr ds →
     load tr vh (<[file := with_parameters fp a]> disk) file
       = inr (with_parameter_samples ds (DataFrame_of_records a))).
Proof.
  intros Hfp Hgrp. split.
  - intros Hplus. unfold WaveformDataset.load.
    rewrite Hfp, Hgrp. simpl.
    destruct (h5_parameters fp); simpl; [| by eexists].
    rewrite Hplus. simpl. by eexists.
  - intros a ds Hload. unfold WaveformDataset.load in *.
    rewrite lookup_insert_eq. rewrite Hfp in Hload. simpl.
    rewrite Hgrp in *. result_cases.
Qed.

(** *** Negative indices *)

(** C10, as the code has it.  On a dataset whose two tables have the same
    number of rows, an index [idx] with [-len ≤ idx < 0] finds the sample
    at position [len + idx], and [__getitem__] does at [idx] what it does
    at [len + idx]. *)
Theorem getitem_negative_index ds idx :
  length (_parameter_samples ds) = length (_waveform_polarizations ds) →
  - Z.of_nat (__len__ ds) ≤ idx < 0 →
  let pos := Z.of_nat (__len__ ds) + idx in
  (∃ data,
     raw_sample ds idx = inr data ∧
     _parameter_samples ds !! Z.to_nat pos = Some (parameters data) ∧
     _waveform_polarizations ds !! Z.to_nat pos = Some (waveform data)) ∧
  __getitem__ ds idx = __getitem__ ds pos.
Proof.
  intros Hrows Hidx pos. unfold __len__ in *. subst pos.
  assert (raw_sample ds idx
          = raw_sample ds (Z.of_nat (length (_parameter_samples ds)) + idx))
    as Hraw.
  { unfold raw_sample. rewrite (iloc_negative (_parameter_samples ds)) by done.
    rewrite (iloc_negative (_waveform_polarizations ds)) by lia.
    by rewrite Hrows. }
  split.
  - rewrite Hraw. unfold raw_sample.
    destruct (iloc_in_range (_parameter_samples ds)
                (Z.of_nat (length (_parameter_samples ds)) + idx))
      as (p & Hp & ->); [lia |].
    destruct (iloc_in_range (_waveform_polarizations ds)
                (Z.of_nat (length (_parameter_samples ds)) + idx))
      as (w & Hw & ->); [lia |].
    eexists. split; [done |]. done.
  - unfold WaveformDataset.__getitem__. by rewrite Hraw.
Qed.

End DatasetTheorems.

(** * Concrete runs *)

Import Examples WaveformDataset.

Lemma unitary2_wf : wf_matrix unitary2.
Proof. by apply wf_matrixb_spec. Qed.

(** ** SVDBasis *)

Lemma uninitialized_basis_raises_run :
  SVDBasis.V (SVDBasis.__init__ (C := gauss)) = None ∧
  SVDBasis.Vh (SVDBasis.__init__ (C := gauss)) = None ∧
  SVDBasis.fseries_to_basis_coefficients SVDBasis.__init__
    (row_vector [cx 1 0; cx 0 1]) = raise (ValueError none_operand_msg) ∧
  SVDBasis.basis_coefficients_to_fseries SVDBasis.__init__
    (row_vector [cx 1 0; cx 0 1]) = raise (ValueError none_operand_msg).
Proof.
  assert (SVDBasis.V (SVDBasis.__init__ (C := gauss)) = None) as HV
    by reflexivity.
  assert (SVDBasis.Vh (SVDBasis.__init__ (C := gauss)) = None) as HVh
    by reflexivity.
  split; [exact HV |]. split; [exact HVh |].
  exact (uninitialized_basis_raises SVDBasis.__init__
           (row_vector [cx 1 0; cx 0 1]) HV HVh).
Defined.

Lemma generate_basis_bogus :
  "bogus" ≠ "random" ∧ "bogus" ≠ "scipy" ∧
  SVDBasis.generate_basis unitary_svd unitary_rsvd unitary2 1 "bogus"
    unitary_basis
  = (raise (ValueError "Unsupported SVD method: bogus."), unitary_basis).
Proof.
  assert ("bogus" ≠ "random") as Hrandom by discriminate.
  assert ("bogus" ≠ "scipy") as Hscipy by discriminate.
  split; [exact Hrandom |]. split; [exact Hscipy |].
  exact (generate_basis_unsupported unitary_svd unitary_rsvd unitary2 1
           "bogus" unitary_basis Hrandom Hscipy).
Defined.

Lemma generate_basis_scipy_rank_one :
  0 ≤ 1 ∧
  unitary_svd unitary2 = inr unitary2_svd ∧
  wf_matrix unitary2 ∧
  (2 ≤ 2)%nat ∧
  ∃ b',
    SVDBasis.generate_basis unitary_svd unitary_rsvd unitary2 1 "scipy"
      SVDBasis.__init__ = (inr (), b') ∧
    SVDBasis.Vh b' = Some (leading_rows 1 unitary2) ∧
    SVDBasis.V b' = Some (conj (transpose (leading_rows 1 unitary2))) ∧
    SVDBasis.n b' = Some 1 ∧
    (1 = 0 ∨ 2 < 1 →
     SVDBasis.Vh b' = Some unitary2 ∧
     SVDBasis.V b' = Some (conj (transpose unitary2))).
Proof.
  assert (0 ≤ 1) as Hk by lia.
  assert (unitary_svd unitary2 = inr unitary2_svd) as Hr by reflexivity.
  assert (2 ≤ 2)%nat as Hshape by lia.
  split; [exact Hk |]. split; [exact Hr |].
  split; [exact unitary2_wf |]. split; [exact Hshape |].
  exact (generate_basis_scipy_truncates unitary_svd unitary_rsvd unitary2 1
           SVDBasis.__init__ unitary2_svd Hk Hr unitary2_wf Hshape).
Defined.

Lemma generate_basis_scipy_complex128 :
  unitary_svd unitary2 = inr unitary2_svd ∧
  ∃ b' v vh,
    SVDBasis.generate_basis unitary_svd unitary_rsvd unitary2 0 "scipy"
      SVDBasis.__init__ = (inr (), b') ∧
    SVDBasis.V b' = Some v ∧ SVDBasis.Vh b' = Some vh ∧
    mdtype v = complex128 ∧ mdtype vh = complex128.
Proof.
  assert (unitary_svd unitary2 = inr unitary2_svd) as Hr by reflexivity.
  split; [exact Hr |].
  exact (generate_basis_scipy_keeps_dtype unitary_svd unitary_rsvd unitary2 0
           SVDBasis.__init__ unitary2_svd Hr).
Defined.

(** The same call with the method ['random'] stores [complex64]. *)
Example generate_basis_random_complex64 :
  ∃ b' v vh,
    SVDBasis.generate_basis unitary_svd unitary_rsvd unitary2 0 "random"
      SVDBasis.__init__ = (inr (), b') ∧
    SVDBasis.V b' = Some v ∧ SVDBasis.Vh b' = Some vh ∧
    mdtype v = complex64 ∧ mdtype vh = complex64.
Proof. by eexists _, _, _. Qed.

Lemma unitary_basis_populated :
  SVDBasis.populates unitary_svd unitary_rsvd SVDBasis.__init__
    unitary_basis.
Proof.
  apply (SVDBasis.populates_from_file _ _ "V.npy" {[ "V.npy" := unitary2 ]}).
  - intros i x [_ <-]%lookup_singleton_Some. exact unitary2_wf.
  - unfold SVDBasis.from_file. by rewrite lookup_singleton_eq.
Qed.

(** The rank 5 on a 2 x 2 training matrix: two rows come back, and 5 is
    stored. *)
Lemma generate_basis_random_rank_unmeasured_run :
  unitary_rsvd swap2 (SVDBasis.resolved_rank swap2 5)
    = inr {| SVDBasis.svd_U := identity float64 2;
             SVDBasis.svd_s := ones float64 2;
             SVDBasis.svd_Vh := swap2 |} ∧
  Z.of_nat 2 ≠ SVDBasis.resolved_rank swap2 5 ∧
  ∃ b' v vh rank,
    SVDBasis.generate_basis unitary_svd unitary_rsvd swap2 5 "random"
      SVDBasis.__init__ = (inr (), b') ∧
    SVDBasis.V b' = Some v ∧ SVDBasis.Vh b' = Some vh ∧
    SVDBasis.n b' = Some rank ∧
    (mshape v).2 = 2%nat ∧ (mshape vh).1 = 2%nat ∧
    rank = 5 ∧
    rank ≠ Z.of_nat (mshape v).2 ∧ rank ≠ Z.of_nat (mshape vh).1.
Proof.
  assert (unitary_rsvd swap2 (SVDBasis.resolved_rank swap2 5)
          = inr {| SVDBasis.svd_U := identity float64 2;
                   SVDBasis.svd_s := ones float64 2;
                   SVDBasis.svd_Vh := swap2 |}) as Hr
    by (vm_compute; reflexivity).
  assert (Z.of_nat 2 ≠ SVDBasis.resolved_rank swap2 5) as Hrows
    by (vm_compute; discriminate).
  split; [exact Hr |]. split; [exact Hrows |].
  exact (generate_basis_random_rank_unmeasured unitary_svd unitary_rsvd
           swap2 5 SVDBasis.__init__ _ Hr Hrows).
Defined.


(** ** WaveformDataset *)

Lemma open_plain : open_dataset "plain.h5" = inr plain_dataset.
Proof. vm_compute. reflexivity. Qed.

Lemma open_basis : open_dataset "basis.h5" = inr basis_dataset.
Proof. vm_compute. reflexivity. Qed.

Lemma open_mismatched : open_dataset "mismatched.h5" = inr mismatched_dataset.
Proof. vm_compute. reflexivity. Qed.

Lemma getitem_reconstructs_run :
  disk !! "basis.h5" = Some basis_file ∧
  h5_rb_matrix_V basis_file = Some unitary2 ∧
  open_dataset "basis.h5" = inr basis_dataset ∧
  __getitem__ basis_dataset 1 =
    (data ← raw_sample basis_dataset 1;
     data ← reconstruct_step (basis_of unitary2) data;
     match transform basis_dataset with
     | Some f => f data
     | None => mret data
     end).
Proof.
  assert (disk !! "basis.h5" = Some basis_file) as Hfp
    by (vm_compute; reflexivity).
  assert (h5_rb_matrix_V basis_file = Some unitary2) as Hv by reflexivity.
  split; [exact Hfp |]. split; [exact Hv |]. split; [exact open_basis |].
  exact (getitem_reconstructs string string keep_literal keep_subscript
           keep_domain disk "basis.h5" None basis_file unitary2
           basis_dataset 1 Hfp Hv open_basis).
Defined.

(** C1 fails on the code.  The file [basis.h5] holds a unitary [V]; on its
    second sample the step of [__getitem__] returns [[1, 1]] for both
    polarizations, and the projection through
    [fseries_to_basis_coefficients] with the same [V] returns
    [[1j, 1j]]. *)
Lemma getitem_step_is_not_project :
  disk !! "basis.h5" = Some basis_file ∧
  h5_rb_matrix_V basis_file = Some unitary2 ∧
  open_dataset "basis.h5" = inr basis_dataset ∧
  raw_sample basis_dataset 1 = inr second_sample ∧
  apply_Vh basis_dataset second_sample
    = inr (with_waveform second_sample (row_vector [cx 1 0; cx 1 0])
                                       (row_vector [cx 1 0; cx 1 0])) ∧
  project_step (basis_of unitary2) second_sample
    = inr (with_waveform second_sample (row_vector [cx 0 1; cx 0 1])
                                       (row_vector [cx 0 1; cx 0 1])) ∧
  apply_Vh basis_dataset second_sample
    ≠ project_step (basis_of unitary2) second_sample.
Proof.
  split; [vm_compute; reflexivity |]. split; [reflexivity |].
  split; [exact open_basis |]. split; [vm_compute; reflexivity |].
  split; [vm_compute; reflexivity |]. split; [vm_compute; reflexivity |].
  intros Heq. vm_compute in Heq. discriminate Heq.
Qed.

Lemma getitem_without_basis_raises_run :
  disk !! "plain.h5" = Some plain_file ∧
  h5_rb_matrix_V plain_file = None ∧
  open_dataset "plain.h5" = inr plain_dataset ∧
  raw_sample plain_dataset 1 = inr second_sample ∧
  __getitem__ plain_dataset 1 = raise (ValueError none_operand_msg).
Proof.
  assert (disk !! "plain.h5" = Some plain_file) as Hfp
    by (vm_compute; reflexivity).
  assert (h5_rb_matrix_V plain_file = None) as Hv by reflexivity.
  assert (raw_sample plain_dataset 1 = inr second_sample) as Hraw
    by (vm_compute; reflexivity).
  split; [exact Hfp |]. split; [exact Hv |]. split; [exact open_plain |].
  split; [exact Hraw |].
  exact (getitem_without_basis_raises string string keep_literal
           keep_subscript keep_domain disk "plain.h5" None plain_file
           plain_dataset 1 second_sample Hfp Hv open_plain Hraw).
Defined.

Lemma load_checks_run :
  disk !! "no_plus.h5" = Some no_plus_file ∧
  h5_waveform_polarizations no_plus_file = Some cross_only ∧
  (cross_only !! "h_plus" = None →
   ∃ key, open_dataset "no_plus.h5" = raise (KeyError key)) ∧
  (∀ a ds,
     open_dataset "no_plus.h5" = inr ds →
     load string string keep_literal keep_subscript keep_domain None
          (Present None)
          (<[ "no_plus.h5" := with_parameters no_plus_file a ]> disk)
          "no_plus.h5"
       = inr (with_parameter_samples ds (DataFrame_of_records a))).
Proof.
  assert (disk !! "no_plus.h5" = Some no_plus_file) as Hfp
    by (vm_compute; reflexivity).
  assert (h5_waveform_polarizations no_plus_file = Some cross_only) as Hgrp
    by reflexivity.
  split; [exact Hfp |]. split; [exact Hgrp |].
  exact (load_checks string string keep_literal keep_subscript keep_domain
           None (Present None) disk "no_plus.h5" no_plus_file _ Hfp Hgrp).
Defined.

(** C3 fails on the code.  The file [mismatched.h5] has three parameter
    records and two waveforms per polarization, and [load] returns a
    dataset with three rows in one table and two in the other. *)
Lemma load_accepts_mismatched_rows :
  disk !! "mismatched.h5" = Some mismatched_file ∧
  (length (records three_parameters) = 3 ∧
   (mshape two_waveforms).1 = 2)%nat ∧
  open_dataset "mismatched.h5" = inr mismatched_dataset ∧
  (length (_parameter_samples mismatched_dataset) = 3 ∧
   length (_waveform_polarizations mismatched_dataset) = 2)%nat.
Proof.
  split; [vm_compute; reflexivity |]. split; [done |].
  split; [exact open_mismatched |]. done.
Qed.

Lemma getitem_negative_index_run :
  length (_parameter_samples plain_dataset)
    = length (_waveform_polarizations plain_dataset) ∧
  - Z.of_nat (__len__ plain_dataset) ≤ -1 < 0 ∧
  (∃ data,
     raw_sample plain_dataset (-1) = inr data ∧
     _parameter_samples plain_dataset !! 2%nat = Some (parameters data) ∧
     _waveform_polarizations plain_dataset !! 2%nat = Some (waveform data)) ∧
  __getitem__ plain_dataset (-1) = __getitem__ plain_dataset 2.
Proof.
  assert (length (_parameter_samples plain_dataset)
          = length (_waveform_polarizations plain_dataset)) as Hrows
    by reflexivity.
  assert (- Z.of_nat (__len__ plain_dataset) ≤ -1 < 0) as Hidx
    by (vm_compute; split; [discriminate | reflexivity]).
  split; [exact Hrows |]. split; [exact Hidx |].
  exact (getitem_negative_index string string plain_dataset (-1) Hrows Hidx).
Defined.

(** C10 fails on the code.  The dataset loaded from [mismatched.h5] has
    length 3, and at the index -3 the look-up in the waveform table, which
    has two rows, is out of bounds. *)
Lemma getitem_negative_out_of_bounds :
  open_dataset "mismatched.h5" = inr mismatched_dataset ∧
  __len__ mismatched_dataset = 3%nat ∧
  - Z.of_nat (__len__ mismatched_dataset) ≤ -3 < 0 ∧
  __getitem__ mismatched_dataset (-3) = raise (IndexError oob_msg).
Proof.
  split; [exact open_mismatched |]. split; [reflexivity |].
  split; [vm_compute; split; [discriminate | reflexivity] |].
  vm_compute. reflexivity.
Qed.

(** * Further properties *)

(** ** SVDBasis *)

Lemma length_append (s t : string) :
  String.length (s +:+ t) = (String.length s + String.length t)%nat.
Proof. induction s as [| a s IH]; simpl; [done | by rewrite IH]. Qed.

(** A name without the extension is not the name [np.save] writes to. *)
Lemma npy_path_other filename :
  ends_with ".npy" filename = false → npy_path filename ≠ filename.
Proof.
  intros Hnpy Heq. unfold npy_path in Heq. rewrite Hnpy in Heq.
  apply (f_equal String.length) in Heq. rewrite length_append in Heq.
  simpl in Heq. lia.
Qed.

Section BasisFurther.
Context {C : Type} `{Scalar C}.
Variable scipy_linalg_svd : matrix C → result (SVDBasis.svd_result C).
Variable randomized_svd : matrix C → Z → result (SVDBasis.svd_result C).

Abbreviation generate_basis :=
  (SVDBasis.generate_basis scipy_linalg_svd randomized_svd).
Abbreviation unpopulated :=
  (SVDBasis.unpopulated scipy_linalg_svd randomized_svd).

Implicit Types (b : SVDBasis.t C) (td : matrix C) (k : Z).

(** X1.  A call of [generate_basis] that returns replaces the whole
    object: what it stores does not depend on what was stored before. *)
Theorem generate_basis_overwrites td k method b1 b2 b' :
  generate_basis td k method b1 = (inr (), b') →
  generate_basis td k method b2 = (inr (), b').
Proof.
  unfold SVDBasis.generate_basis.
  destruct (String.eqb method "random").
  - destruct (randomized_svd _ _); [intros [= ] | done].
  - destruct (String.eqb method "scipy"); [| intros [= ]].
    destruct (scipy_linalg_svd _); [intros [= ] | done].
Qed.

(** X2.  When [generate_basis] raises, the object is unchanged, and the
    error is the one of the decomposition of the chosen method, or the
    unsupported-method error for any other method. *)
Theorem generate_basis_raises_how td k method b e b' :
  generate_basis td k method b = (inl e, b') →
  b' = b ∧
  (method = "random" ∧
     randomized_svd td (SVDBasis.resolved_rank td k) = inl e
   ∨ method = "scipy" ∧ scipy_linalg_svd td = inl e
   ∨ method ≠ "random" ∧ method ≠ "scipy" ∧
     e = ValueError (SVDBasis.unsupported_msg method)).
Proof.
  unfold SVDBasis.generate_basis, SVDBasis.resolved_rank.
  destruct (String.eqb_spec method "random") as [-> | Hrandom].
  - destruct (randomized_svd _ _) as [e' |] eqn:Hr; intros [= ]; subst.
    split; [done |]. by left.
  - destruct (String.eqb_spec method "scipy") as [-> | Hscipy].
    + destruct (scipy_linalg_svd _) as [e' |] eqn:Hr.
      * intros [= ]; subst. split; [done |]. right. by left.
      * destruct (_ || _); intros [= ].
    + intros [= ]; subst. split; [done |]. right. by right.
Qed.

(** X3.  With the method ['scipy'], a rank of at least the number of
    singular vectors the decomposition returns gives what the rank 0
    gives. *)
Theorem generate_basis_scipy_excess td k b r :
  scipy_linalg_svd td = inr r →
  wf_matrix (SVDBasis.svd_Vh r) →
  ((mshape (SVDBasis.svd_Vh r)).1 ≤ (mshape (SVDBasis.svd_Vh r)).2)%nat →
  Z.of_nat (mshape (SVDBasis.svd_Vh r)).1 ≤ k →
  generate_basis td k "scipy" b = generate_basis td 0 "scipy" b.
Proof.
  intros Hr Hwf Hshape Hk.
  rewrite (generate_basis_scipy_all _ _ td 0 b r Hr) by by left.
  destruct (decide (k = 0 ∨ Z.of_nat (mshape (SVDBasis.svd_Vh r)).2 < k))
    as [Hcase | Hcase].
  - by apply generate_basis_scipy_all.
  - rewrite (generate_basis_scipy_slice _ _ td k b r Hr) by lia.
    rewrite slice_pair by done.
    rewrite slice_rows_all by done.
    rewrite slice_stop_nonneg by lia.
    do 3 f_equal. lia.
Qed.

(** X4.  With the method ['scipy'], a negative rank [k] is the slice
    [[:k]]: the basis keeps all but the last [-k] singular vectors (none
    when there are not that many), and [n] counts what is kept. *)
Theorem generate_basis_scipy_negative td k b r :
  k < 0 →
  scipy_linalg_svd td = inr r →
  wf_matrix (SVDBasis.svd_Vh r) →
  let vh := SVDBasis.svd_Vh r in
  let kept := Z.to_nat (Z.of_nat (mshape vh).1 + k) in
  generate_basis td k "scipy" b =
    (inr (),
     {| SVDBasis.V := Some (conj (transpose (leading_rows kept vh)));
        SVDBasis.Vh := Some (leading_rows kept vh);
        SVDBasis.n := Some (Z.of_nat kept) |}).
Proof.
  intros Hk Hr Hwf. cbv zeta.
  rewrite (generate_basis_scipy_slice _ _ td k b r Hr) by lia.
  rewrite slice_pair by done.
  assert (slice_stop k (mshape (SVDBasis.svd_Vh r)).1
          = Z.to_nat (Z.of_nat (mshape (SVDBasis.svd_Vh r)).1 + k))
    as Hstop.
  { unfold slice_stop. by replace (k <? 0) with true by lia. }
  unfold slice_rows, leading_rows. by rewrite Hstop.
Qed.

(** X5.  [to_file] writes nothing on a new object, also after calls of
    [generate_basis] that raised and calls of [from_file] on a file that
    does not exist. *)
Theorem to_file_unpopulated b filename (disk : gmap string (matrix C)) :
  unpopulated b →
  SVDBasis.to_file filename b disk = disk.
Proof.
  intros Hb. by rewrite (unpopulated_init _ _ _ Hb).
Qed.

(** X6.  [to_file] under a name without the extension [.npy], then
    [from_file] under that same name: when the disk had no file of that
    name, [from_file] raises [FileNotFoundError] and leaves the object as
    it was, because the array went to the name with the extension. *)
Theorem from_file_same_name b b0 v filename
    (disk : gmap string (matrix C)) :
  SVDBasis.V b = Some v →
  ends_with ".npy" filename = false →
  disk !! filename = None →
  SVDBasis.from_file filename (SVDBasis.to_file filename b disk) b0
    = (raise (FileNotFoundError filename), b0) ∧
  SVDBasis.to_file filename b disk !! (filename +:+ ".npy") = Some v.
Proof.
  intros HV Hnpy Hnone. unfold SVDBasis.to_file, SVDBasis.from_file.
  rewrite HV. split.
  - rewrite lookup_insert_ne by by apply npy_path_other. by rewrite Hnone.
  - unfold npy_path. by rewrite Hnpy, lookup_insert_eq.
Qed.

(** X7.  [from_file] of a [.npy] file, then [to_file] under the same
    name: the disk is what it was. *)
Theorem from_file_to_file b b' filename (disk : gmap string (matrix C)) :
  ends_with ".npy" filename = true →
  SVDBasis.from_file filename disk b = (inr (), b') →
  SVDBasis.to_file filename b' disk = disk.
Proof.
  intros Hnpy. unfold SVDBasis.from_file, SVDBasis.to_file.
  destruct (disk !! filename) as [v |] eqn:Hv; [| intros [= ]].
  intros [= <-]. simpl. rewrite npy_path_npy by done. by apply insert_id.
Qed.

Lemma length_row_times (u : list C) (m : matrix C) :
  length (row_times u m) = (mshape m).2.
Proof. unfold row_times. by rewrite length_fmap, length_seq. Qed.

(** X8.  On a basis that holds a [V] with [d] rows and [V.T.conj()] as
    [Vh], [fseries_to_basis_coefficients] of a vector of length [d]
    returns a vector with one entry per column of [V], and
    [basis_coefficients_to_fseries] of that vector returns a vector of
    length [d] again; a vector of another length makes
    [fseries_to_basis_coefficients] raise the dimension-mismatch
    [ValueError]. *)
Theorem project_reconstruct_lengths b v (x : vector C) :
  SVDBasis.V b = Some v →
  SVDBasis.Vh b = Some (conj (transpose v)) →
  (length (vdata x) = (mshape v).1 →
   ∃ y z,
     SVDBasis.fseries_to_basis_coefficients b (Arr1 x) = inr (Arr1 y) ∧
     length (vdata y) = (mshape v).2 ∧
     SVDBasis.basis_coefficients_to_fseries b (Arr1 y) = inr (Arr1 z) ∧
     length (vdata z) = length (vdata x)) ∧
  (length (vdata x) ≠ (mshape v).1 →
   SVDBasis.fseries_to_basis_coefficients b (Arr1 x)
     = raise (ValueError mismatch_msg)).
Proof.
  intros HV HVh.
  unfold SVDBasis.fseries_to_basis_coefficients,
    SVDBasis.basis_coefficients_to_fseries.
  rewrite HV, HVh. simpl. split; intros Hlen.
  - destruct (decide (length (vdata x) = (mshape v).1)); [| done].
    eexists _, _. split; [done |]. simpl.
    rewrite length_row_times. split; [done |].
    destruct (decide ((mshape v).2 = (mshape v).2)); [| done].
    split; [done |]. simpl. by rewrite length_row_times.
  - by destruct (decide (length (vdata x) = (mshape v).1)).
Qed.

End BasisFurther.

(** ** WaveformDataset *)

Section DatasetFurther.
Context {C : Type} `{Scalar C}.
Variables Settings Domain : Type.
Variable literal_eval : string → result Settings.
Variable subscript : Settings → string → result Settings.
Variable build_domain : Settings → result Domain.

Import WaveformDataset.

Abbreviation load :=
  (WaveformDataset.load Settings Domain literal_eval subscript build_domain).
Abbreviation __init__ :=
  (WaveformDataset.__init__ Settings Domain literal_eval subscript
     build_domain).
Abbreviation dataset := (WaveformDataset.t C Settings Domain).

Implicit Types (ds : dataset) (fp : h5file C) (idx : Z).

Ltac bind_cases :=
  unfold getkey in *;
  unfold mbind, result_bind, mret, result_ret, raise in *;
  repeat case_match; simplify_eq; try done.

(** X9.  What a dataset that [load] returned says about its file: the
    file exists and has the parameters, the waveform group with [h_plus]
    and [h_cross] of the same number of rows, and the settings attribute;
    the length of the dataset is the number of parameter records, the
    waveform table has one row per row of [h_plus], and the transform is
    the one the object had. *)
Theorem load_returns tr vh (disk : gmap string (h5file C)) file ds :
  load tr vh disk file = inr ds →
  ∃ fp a grp plus cross settings,
    disk !! file = Some fp ∧
    h5_parameters fp = Some a ∧
    h5_waveform_polarizations fp = Some grp ∧
    grp !! "h_plus" = Some plus ∧ grp !! "h_cross" = Some cross ∧
    length (mrows plus) = length (mrows cross) ∧
    h5_attrs fp !! "settings" = Some settings ∧
    __len__ ds = length (records a) ∧
    length (_waveform_polarizations ds) = length (mrows plus) ∧
    transform ds = tr.
Proof.
  unfold WaveformDataset.load, DataFrame_of_columns, rows_of.
  intros Hload. bind_cases.
  all: match goal with
       | E : length (_ <$> _) = length (_ <$> _) |- _ =>
           pose proof E as Hrows; rewrite !length_fmap in Hrows
       end.
  all: eexists _, _, _, _, _, _; split_and!; try eassumption.
  all: unfold __len__, DataFrame_of_records;
    cbn [_parameter_samples _waveform_polarizations].
  all: rewrite ?length_zip_with, ?length_fmap; (done || lia).
Qed.

(** X10.  [load] raises [KeyError] with the first key, in the order
    [parameters], [waveform_polarizations], [h_plus], [h_cross], that the
    file lacks. *)
Theorem load_first_missing tr vh (disk : gmap string (h5file C)) file fp
    key :
  disk !! file = Some fp →
  first_missing fp = Some key →
  load tr vh disk file = raise (KeyError key).
Proof.
  intros Hfp. unfold WaveformDataset.load, first_missing. rewrite Hfp.
  intros Hkey. bind_cases.
Qed.

(** X11.  On a file that has every table, [load] raises the pandas
    [ValueError] when [h_plus] and [h_cross] differ in their number of
    rows, and otherwise [KeyError] when the settings attribute is
    missing. *)
Theorem load_after_tables tr vh (disk : gmap string (h5file C)) file fp
    grp plus cross :
  disk !! file = Some fp →
  first_missing fp = None →
  h5_waveform_polarizations fp = Some grp →
  grp !! "h_plus" = Some plus → grp !! "h_cross" = Some cross →
  (length (mrows plus) ≠ length (mrows cross) →
   load tr vh disk file = raise (ValueError unequal_msg)) ∧
  (length (mrows plus) = length (mrows cross) →
   h5_attrs fp !! "settings" = None →
   load tr vh disk file = raise (KeyError "settings")).
Proof.
  intros Hfp Hmiss Hgrp Hplus Hcross.
  unfold WaveformDataset.load, first_missing, DataFrame_of_columns, rows_of,
    getkey, raise in *.
  unfold mbind, result_bind, mret, result_ret in *.
  rewrite Hfp, Hgrp in *. rewrite Hplus, Hcross in *.
  destruct (h5_parameters fp); [| done].
  rewrite !length_fmap. split.
  - intros Hne. by destruct (decide _).
  - intros Heq Hnone. destruct (decide _); [| done].
    by rewrite Hnone.
Qed.

(** X12.  [load] called again on a dataset object, with a file that has
    no [rb_matrix_V], keeps the [_Vh] of the file loaded before. *)
Theorem reload_keeps_Vh tr vh (disk : gmap string (h5file C)) file1 file2
    fp1 fp2 v ds1 ds2 :
  disk !! file1 = Some fp1 → h5_rb_matrix_V fp1 = Some v →
  disk !! file2 = Some fp2 → h5_rb_matrix_V fp2 = None →
  load tr vh disk file1 = inr ds1 →
  load (transform ds1) (_Vh ds1) disk file2 = inr ds2 →
  _Vh ds2 = Present (Some (conj (transpose v))).
Proof.
  intros Hfp1 Hv1 Hfp2 Hv2 Hload1 Hload2.
  destruct (load_attrs _ _ _ _ _ _ _ _ _ _ _ Hfp1 Hload1) as [_ HVh1].
  destruct (load_attrs _ _ _ _ _ _ _ _ _ _ _ Hfp2 Hload2) as [_ HVh2].
  rewrite Hv1 in HVh1. rewrite Hv2 in HVh2. congruence.
Qed.

(** X13.  An index outside [-len, len) makes [__getitem__] raise
    [IndexError], whatever the basis and the transform are. *)
Theorem getitem_out_of_range ds idx :
  idx < - Z.of_nat (__len__ ds) ∨ Z.of_nat (__len__ ds) ≤ idx →
  __getitem__ ds idx = raise (IndexError oob_msg).
Proof.
  intros Hidx. unfold WaveformDataset.__getitem__, raw_sample, iloc, __len__
    in *.
  replace ((idx <? - Z.of_nat (length (_parameter_samples ds)))
           || (Z.of_nat (length (_parameter_samples ds)) <=? idx))
    with true; [done |].
  symmetry. apply orb_true_iff. rewrite Z.ltb_lt, Z.leb_le. lia.
Qed.

(** X14.  On a dataset loaded from a file with a persisted [V], the
    vectors of the waveform table must have one entry per column of [V]:
    when [h_plus] of the row has another length, [__getitem__] raises the
    dimension-mismatch [ValueError]; when both polarizations have that
    length and there is no transform, it returns the parameters of the
    row and two vectors with one entry per row of [V]. *)
Theorem getitem_lengths (disk : gmap string (h5file C)) file fp v ds idx
    data (p c : vector C) :
  disk !! file = Some fp →
  h5_rb_matrix_V fp = Some v →
  __init__ disk file None = inr ds →
  raw_sample ds idx = inr data →
  h_plus (waveform data) = Arr1 p → h_cross (waveform data) = Arr1 c →
  (length (vdata p) ≠ (mshape v).2 →
   __getitem__ ds idx = raise (ValueError mismatch_msg)) ∧
  (length (vdata p) = (mshape v).2 → length (vdata c) = (mshape v).2 →
   ∃ p' c',
     __getitem__ ds idx
       = inr (with_waveform data (Arr1 p') (Arr1 c')) ∧
     length (vdata p') = (mshape v).1 ∧ length (vdata c') = (mshape v).1).
Proof.
  intros Hfp Hv Hinit Hraw Hp Hc.
  destruct (load_attrs _ _ _ _ _ _ _ _ _ _ _ Hfp Hinit) as [Htr HVh].
  rewrite Hv in HVh.
  unfold WaveformDataset.__getitem__, apply_Vh.
  rewrite Hraw, HVh, Htr. simpl. rewrite Hp. simpl. split.
  - intros Hne. by destruct (decide (length (vdata p) = (mshape v).2)).
  - intros Hlp Hlc.
    destruct (decide (length (vdata p) = (mshape v).2)); [| done]. simpl.
    rewrite Hc. simpl.
    destruct (decide (length (vdata c) = (mshape v).2)); [| done]. simpl.
    eexists _, _. split; [done |]. cbn [vdata].
    by rewrite !length_row_times.
Qed.

(** X15.  Without a transform, the record that [__getitem__] returns has
    the parameters of the row it looked up: the basis step changes the
    waveform only. *)
Theorem getitem_keeps_parameters ds idx s :
  transform ds = None →
  __getitem__ ds idx = inr s →
  ∃ data, raw_sample ds idx = inr data ∧ parameters s = parameters data.
Proof.
  intros Htr. unfold WaveformDataset.__getitem__, apply_Vh. rewrite Htr.
  destruct (raw_sample ds idx) as [e | data]; [done |]. simpl.
  intros Hget. exists data. split; [done |].
  destruct (_Vh ds) as [| Vh]; bind_cases.
Qed.

End DatasetFurther.

(** ** Concrete runs of the further properties *)

Lemma generate_basis_overwrites_run :
  SVDBasis.generate_basis unitary_svd unitary_rsvd unitary2 1 "scipy"
    SVDBasis.__init__ = (inr (), rank_one_basis) ∧
  SVDBasis.generate_basis unitary_svd unitary_rsvd unitary2 1 "scipy"
    unitary_basis = (inr (), rank_one_basis).
Proof.
  assert (SVDBasis.generate_basis unitary_svd unitary_rsvd unitary2 1 "scipy"
            SVDBasis.__init__ = (inr (), rank_one_basis)) as Hgen
    by (vm_compute; reflexivity).
  split; [exact Hgen |].
  exact (generate_basis_overwrites unitary_svd unitary_rsvd unitary2 1
           "scipy" SVDBasis.__init__ unitary_basis rank_one_basis Hgen).
Defined.

Lemma generate_basis_raises_how_run :
  SVDBasis.generate_basis failing_svd unitary_rsvd unitary2 0 "scipy"
    unitary_basis
  = (inl (LinAlgError "SVD did not converge"), unitary_basis) ∧
  unitary_basis = unitary_basis ∧
  ("scipy" = "random" ∧
     unitary_rsvd unitary2 (SVDBasis.resolved_rank unitary2 0)
     = inl (LinAlgError "SVD did not converge")
   ∨ "scipy" = "scipy" ∧
     failing_svd unitary2 = inl (LinAlgError "SVD did not converge")
   ∨ "scipy" ≠ "random" ∧ "scipy" ≠ "scipy" ∧
     LinAlgError "SVD did not converge"
     = ValueError (SVDBasis.unsupported_msg "scipy")).
Proof.
  assert (SVDBasis.generate_basis failing_svd unitary_rsvd unitary2 0 "scipy"
            unitary_basis
          = (inl (LinAlgError "SVD did not converge"), unitary_basis))
    as Hgen by reflexivity.
  split; [exact Hgen |].
  exact (generate_basis_raises_how failing_svd unitary_rsvd unitary2 0
           "scipy" unitary_basis _ _ Hgen).
Defined.

Lemma one_row_wf : wf_matrix one_row.
Proof. by apply wf_matrixb_spec. Qed.

Lemma generate_basis_scipy_excess_run :
  row_svd one_row = inr one_row_svd ∧
  wf_matrix one_row ∧ (1 ≤ 2)%nat ∧ 1 ≤ 2 ∧
  SVDBasis.generate_basis row_svd unitary_rsvd one_row 2 "scipy"
    SVDBasis.__init__
  = SVDBasis.generate_basis row_svd unitary_rsvd one_row 0 "scipy"
      SVDBasis.__init__.
Proof.
  assert (row_svd one_row = inr one_row_svd) as Hr by reflexivity.
  assert (1 ≤ 2)%nat as Hshape by lia.
  assert (1 ≤ 2) as Hk by lia.
  split; [exact Hr |]. split; [exact one_row_wf |].
  split; [exact Hshape |]. split; [exact Hk |].
  exact (generate_basis_scipy_excess row_svd unitary_rsvd one_row 2
           SVDBasis.__init__ one_row_svd Hr one_row_wf Hshape Hk).
Defined.

Lemma generate_basis_scipy_negative_run :
  -1 < 0 ∧
  unitary_svd unitary2 = inr unitary2_svd ∧
  wf_matrix unitary2 ∧
  SVDBasis.generate_basis unitary_svd unitary_rsvd unitary2 (-1) "scipy"
    SVDBasis.__init__
  = (inr (),
     {| SVDBasis.V := Some (conj (transpose (leading_rows 1 unitary2)));
        SVDBasis.Vh := Some (leading_rows 1 unitary2);
        SVDBasis.n := Some 1 |}).
Proof.
  assert (-1 < 0) as Hk by lia.
  assert (unitary_svd unitary2 = inr unitary2_svd) as Hr by reflexivity.
  split; [exact Hk |]. split; [exact Hr |]. split; [exact unitary2_wf |].
  exact (generate_basis_scipy_negative unitary_svd unitary_rsvd unitary2
           (-1) SVDBasis.__init__ unitary2_svd Hk Hr unitary2_wf).
Defined.

(** A new object after [generate_basis] with the method ['bogus'] and
    [from_file] of a file that does not exist. *)
Lemma to_file_unpopulated_run :
  SVDBasis.unpopulated unitary_svd unitary_rsvd
    (SVDBasis.from_file "missing.npy" ∅
       (SVDBasis.generate_basis unitary_svd unitary_rsvd unitary2 1 "bogus"
          SVDBasis.__init__).2).2 ∧
  SVDBasis.to_file "basis.npy"
    (SVDBasis.from_file "missing.npy" ∅
       (SVDBasis.generate_basis unitary_svd unitary_rsvd unitary2 1 "bogus"
          SVDBasis.__init__).2).2
    ({[ "other.npy" := unitary2 ]} : gmap string (matrix gauss))
  = {[ "other.npy" := unitary2 ]}.
Proof.
  assert (SVDBasis.unpopulated unitary_svd unitary_rsvd
            (SVDBasis.from_file "missing.npy" ∅
               (SVDBasis.generate_basis unitary_svd unitary_rsvd unitary2 1
                  "bogus" SVDBasis.__init__).2).2) as Hb.
  { eapply (SVDBasis.unpopulated_from_file _ _ "missing.npy" ∅);
      [| reflexivity | reflexivity].
    eapply (SVDBasis.unpopulated_generate _ _ unitary2 1 "bogus");
      [apply SVDBasis.unpopulated_init | reflexivity]. }
  split; [exact Hb |].
  exact (to_file_unpopulated unitary_svd unitary_rsvd _ "basis.npy" _ Hb).
Defined.

Lemma from_file_same_name_run :
  SVDBasis.V unitary_basis = Some unitary2 ∧
  ends_with ".npy" "basis" = false ∧
  (∅ : gmap string (matrix gauss)) !! "basis" = None ∧
  SVDBasis.from_file "basis" (SVDBasis.to_file "basis" unitary_basis ∅)
    SVDBasis.__init__
  = (raise (FileNotFoundError "basis"), SVDBasis.__init__) ∧
  SVDBasis.to_file "basis" unitary_basis ∅ !! "basis.npy" = Some unitary2.
Proof.
  assert (SVDBasis.V unitary_basis = Some unitary2) as HV by reflexivity.
  assert (ends_with ".npy" "basis" = false) as Hnpy by reflexivity.
  assert ((∅ : gmap string (matrix gauss)) !! "basis" = None) as Hnone
    by reflexivity.
  split; [exact HV |]. split; [exact Hnpy |]. split; [exact Hnone |].
  exact (from_file_same_name unitary_basis SVDBasis.__init__ unitary2
           "basis" ∅ HV Hnpy Hnone).
Defined.

Lemma from_file_to_file_run :
  ends_with ".npy" "V.npy" = true ∧
  SVDBasis.from_file "V.npy" {[ "V.npy" := unitary2 ]} SVDBasis.__init__
  = (inr (), unitary_basis) ∧
  SVDBasis.to_file "V.npy" unitary_basis {[ "V.npy" := unitary2 ]}
  = {[ "V.npy" := unitary2 ]}.
Proof.
  assert (ends_with ".npy" "V.npy" = true) as Hnpy by reflexivity.
  assert (SVDBasis.from_file "V.npy" {[ "V.npy" := unitary2 ]}
            SVDBasis.__init__ = (inr (), unitary_basis)) as Hload
    by (vm_compute; reflexivity).
  split; [exact Hnpy |]. split; [exact Hload |].
  exact (from_file_to_file SVDBasis.__init__ unitary_basis "V.npy" _
           Hnpy Hload).
Defined.

Lemma project_reconstruct_lengths_run :
  SVDBasis.V column_basis = Some column2 ∧
  SVDBasis.Vh column_basis = Some (conj (transpose column2)) ∧
  let x := {| vdtype := complex128; vdata := [cx 1 0; cx 0 1] |} in
  (length (vdata x) = 2%nat →
   ∃ y z,
     SVDBasis.fseries_to_basis_coefficients column_basis (Arr1 x)
       = inr (Arr1 y) ∧
     length (vdata y) = 1%nat ∧
     SVDBasis.basis_coefficients_to_fseries column_basis (Arr1 y)
       = inr (Arr1 z) ∧
     length (vdata z) = length (vdata x)) ∧
  (length (vdata x) ≠ 2%nat →
   SVDBasis.fseries_to_basis_coefficients column_basis (Arr1 x)
     = raise (ValueError mismatch_msg)).
Proof.
  assert (SVDBasis.V column_basis = Some column2) as HV by reflexivity.
  assert (SVDBasis.Vh column_basis = Some (conj (transpose column2)))
    as HVh by reflexivity.
  split; [exact HV |]. split; [exact HVh |].
  exact (project_reconstruct_lengths column_basis column2
           {| vdtype := complex128; vdata := [cx 1 0; cx 0 1] |} HV HVh).
Defined.

Lemma load_returns_run :
  open_dataset "plain.h5" = inr plain_dataset ∧
  ∃ fp a grp plus cross settings,
    disk !! "plain.h5" = Some fp ∧
    h5_parameters fp = Some a ∧
    h5_waveform_polarizations fp = Some grp ∧
    grp !! "h_plus" = Some plus ∧ grp !! "h_cross" = Some cross ∧
    length (mrows plus) = length (mrows cross) ∧
    h5_attrs fp !! "settings" = Some settings ∧
    __len__ plain_dataset = length (records a) ∧
    length (_waveform_polarizations plain_dataset) = length (mrows plus) ∧
    transform plain_dataset = None.
Proof.
  split; [exact open_plain |].
  exact (load_returns string string keep_literal keep_subscript keep_domain
           None (Present None) disk "plain.h5" plain_dataset open_plain).
Defined.

Lemma load_first_missing_run :
  disk !! "no_plus.h5" = Some no_plus_file ∧
  first_missing no_plus_file = Some "h_plus" ∧
  open_dataset "no_plus.h5" = raise (KeyError "h_plus").
Proof.
  assert (disk !! "no_plus.h5" = Some no_plus_file) as Hfp
    by (vm_compute; reflexivity).
  assert (first_missing no_plus_file = Some "h_plus") as Hkey
    by (vm_compute; reflexivity).
  split; [exact Hfp |]. split; [exact Hkey |].
  exact (load_first_missing string string keep_literal keep_subscript
           keep_domain None (Present None) disk "no_plus.h5" no_plus_file
           "h_plus" Hfp Hkey).
Defined.

Lemma load_after_tables_run :
  unequal_disk !! "unequal.h5" = Some unequal_file ∧
  first_missing unequal_file = None ∧
  h5_waveform_polarizations unequal_file = Some unequal_group ∧
  unequal_group !! "h_plus" = Some two_waveforms ∧
  unequal_group !! "h_cross" = Some three_waveforms ∧
  (length (mrows two_waveforms) ≠ length (mrows three_waveforms) →
   load string string keep_literal keep_subscript keep_domain None
        (Present None) unequal_disk "unequal.h5"
     = raise (ValueError unequal_msg)) ∧
  (length (mrows two_waveforms) = length (mrows three_waveforms) →
   h5_attrs unequal_file !! "settings" = None →
   load string string keep_literal keep_subscript keep_domain None
        (Present None) unequal_disk "unequal.h5"
     = raise (KeyError "settings")).
Proof.
  assert (unequal_disk !! "unequal.h5" = Some unequal_file) as Hfp
    by (vm_compute; reflexivity).
  assert (first_missing unequal_file = None) as Hmiss
    by (vm_compute; reflexivity).
  assert (h5_waveform_polarizations unequal_file = Some unequal_group)
    as Hgrp by reflexivity.
  assert (unequal_group !! "h_plus" = Some two_waveforms) as Hplus
    by (vm_compute; reflexivity).
  assert (unequal_group !! "h_cross" = Some three_waveforms) as Hcross
    by (vm_compute; reflexivity).
  split; [exact Hfp |]. split; [exact Hmiss |]. split; [exact Hgrp |].
  split; [exact Hplus |]. split; [exact Hcross |].
  exact (load_after_tables string string keep_literal keep_subscript
           keep_domain None (Present None) unequal_disk "unequal.h5"
           unequal_file unequal_group two_waveforms three_waveforms
           Hfp Hmiss Hgrp Hplus Hcross).
Defined.

Lemma reload_keeps_Vh_run :
  disk !! "basis.h5" = Some basis_file ∧
  h5_rb_matrix_V basis_file = Some unitary2 ∧
  disk !! "plain.h5" = Some plain_file ∧
  h5_rb_matrix_V plain_file = None ∧
  load string string keep_literal keep_subscript keep_domain None
       (Present None) disk "basis.h5" = inr basis_dataset ∧
  load string string keep_literal keep_subscript keep_domain
       (transform basis_dataset) (_Vh basis_dataset) disk "plain.h5"
    = inr basis_dataset ∧
  _Vh basis_dataset = Present (Some (conj (transpose unitary2))).
Proof.
  assert (disk !! "basis.h5" = Some basis_file) as Hfp1
    by (vm_compute; reflexivity).
  assert (h5_rb_matrix_V basis_file = Some unitary2) as Hv1 by reflexivity.
  assert (disk !! "plain.h5" = Some plain_file) as Hfp2
    by (vm_compute; reflexivity).
  assert (h5_rb_matrix_V plain_file = None) as Hv2 by reflexivity.
  assert (load string string keep_literal keep_subscript keep_domain
            (transform basis_dataset) (_Vh basis_dataset) disk "plain.h5"
          = inr basis_dataset) as Hload2 by (vm_compute; reflexivity).
  split; [exact Hfp1 |]. split; [exact Hv1 |]. split; [exact Hfp2 |].
  split; [exact Hv2 |]. split; [exact open_basis |].
  split; [exact Hload2 |].
  exact (reload_keeps_Vh string string keep_literal keep_subscript
           keep_domain None (Present None) disk "basis.h5" "plain.h5"
           basis_file plain_file unitary2 basis_dataset basis_dataset
           Hfp1 Hv1 Hfp2 Hv2 open_basis Hload2).
Defined.

Lemma getitem_out_of_range_run :
  (3 < - Z.of_nat (__len__ plain_dataset) ∨
   Z.of_nat (__len__ plain_dataset) ≤ 3) ∧
  __getitem__ plain_dataset 3 = raise (IndexError oob_msg).
Proof.
  assert (3 < - Z.of_nat (__len__ plain_dataset) ∨
          Z.of_nat (__len__ plain_dataset) ≤ 3) as Hidx
    by (right; vm_compute; discriminate).
  split; [exact Hidx |].
  exact (getitem_out_of_range string string plain_dataset 3 Hidx).
Defined.

Lemma open_truncated :
  __init__ string string keep_literal keep_subscript keep_domain
    truncated_disk "truncated.h5" None = inr truncated_dataset.
Proof. vm_compute. reflexivity. Qed.

Lemma getitem_lengths_run :
  truncated_disk !! "truncated.h5" = Some truncated_file ∧
  h5_rb_matrix_V truncated_file = Some column2 ∧
  __init__ string string keep_literal keep_subscript keep_domain
    truncated_disk "truncated.h5" None = inr truncated_dataset ∧
  raw_sample truncated_dataset 1 = inr second_sample ∧
  let p := {| vdtype := complex128; vdata := [cx 1 0; cx 0 1] |} in
  h_plus (waveform second_sample) = Arr1 p ∧
  h_cross (waveform second_sample) = Arr1 p ∧
  (length (vdata p) ≠ 1%nat →
   __getitem__ truncated_dataset 1 = raise (ValueError mismatch_msg)) ∧
  (length (vdata p) = 1%nat → length (vdata p) = 1%nat →
   ∃ p' c',
     __getitem__ truncated_dataset 1
       = inr (with_waveform second_sample (Arr1 p') (Arr1 c')) ∧
     length (vdata p') = 2%nat ∧ length (vdata c') = 2%nat).
Proof.
  assert (truncated_disk !! "truncated.h5" = Some truncated_file) as Hfp
    by (vm_compute; reflexivity).
  assert (h5_rb_matrix_V truncated_file = Some column2) as Hv
    by reflexivity.
  assert (raw_sample truncated_dataset 1 = inr second_sample) as Hraw
    by (vm_compute; reflexivity).
  assert (h_plus (waveform second_sample)
          = Arr1 {| vdtype := complex128; vdata := [cx 1 0; cx 0 1] |})
    as Hp by reflexivity.
  assert (h_cross (waveform second_sample)
          = Arr1 {| vdtype := complex128; vdata := [cx 1 0; cx 0 1] |})
    as Hc by reflexivity.
  split; [exact Hfp |]. split; [exact Hv |]. split; [exact open_truncated |].
  split; [exact Hraw |]. cbv zeta. split; [exact Hp |]. split; [exact Hc |].
  exact (getitem_lengths string string keep_literal keep_subscript
           keep_domain truncated_disk "truncated.h5" truncated_file column2
           truncated_dataset 1 second_sample _ _ Hfp Hv open_truncated Hraw
           Hp Hc).
Defined.

Lemma getitem_keeps_parameters_run :
  transform basis_dataset = None ∧
  __getitem__ basis_dataset 1 = inr second_sample_through_Vh ∧
  ∃ data,
    raw_sample basis_dataset 1 = inr data ∧
    parameters second_sample_through_Vh = parameters data.
Proof.
  assert (transform basis_dataset = None) as Htr by reflexivity.
  assert (__getitem__ basis_dataset 1 = inr second_sample_through_Vh)
    as Hget by (vm_compute; reflexivity).
  split; [exact Htr |]. split; [exact Hget |].
  exact (getitem_keeps_parameters string string basis_dataset 1
           second_sample_through_Vh Htr Hget).
Defined.
